(** * The background worker of the extension, embedded in Rocq

    Source: [extension/scripts/background-worker.js].

    The worker is a set of [async] JavaScript functions that talk to the
    browser (network, tab messaging, script injection, the registry of
    content scripts) and three event listeners.  The embedding is shallow:

    - JavaScript values that reach the code (parsed JSON bodies, messages,
      probe responses) are the inductive type [JValue];
    - a function that can throw returns a [Completion];
    - the browser is a record [Host] of oracles: what a call answers may
      depend on everything that was called before it ([trace]);
    - every call made to the browser is appended to the [trace] of the
      [World], so "how many requests were issued" is a count over it;
    - the registry of content scripts is a finite map [gmap] from script id
      to the registered script.

    One event is run to completion at a time (the worker is single threaded;
    interleaving of two events at their [await] points is not modelled). *)

From Stdlib Require Import Ascii String ZArith Lia.
From stdpp Require Import base option list strings pretty gmap.
From Equations Require Import Equations.

Local Set Warnings "-register-all".
Local Open Scope string_scope.
Local Open Scope list_scope.
Local Open Scope Z_scope.
Local Open Scope nat_scope.

(** ** JavaScript values *)

Module JS.

(** The values the worker handles: what [JSON.parse] produces, plus
    [undefined].  Numbers are the integer-valued ones (application and
    context identifiers, tab identifiers); an object keeps its properties in
    insertion order. *)
Inductive JValue : Type :=
| JUndefined
| JNull
| JBool (b : bool)
| JNum (n : Z)
| JStr (s : string)
| JArr (items : list JValue)
| JObj (fields : list (string * JValue)).

(** An [Error] object: thrown values of the worker and rejections of the
    host are all [Error] instances, with a [name] and a [message]. *)
Record JsError : Type := mkError { err_name : string; err_message : string }.

Definition Error (msg : string) : JsError := mkError "Error" msg.
Definition TypeError (msg : string) : JsError := mkError "TypeError" msg.
Definition SyntaxError (msg : string) : JsError := mkError "SyntaxError" msg.

(** Outcome of evaluating something that may throw; for an [async] function
    or a promise, [Throw] is rejection. *)
Inductive Completion (A : Type) : Type :=
| Normal (a : A)
| Throw (e : JsError).
Arguments Normal {A} a.
Arguments Throw {A} e.

(** [ToBoolean]. *)
Definition truthy (v : JValue) : bool :=
  match v with
  | JUndefined | JNull => false
  | JBool b => b
  | JNum n => negb (n =? 0)%Z
  | JStr s => negb (String.eqb s "")
  | JArr _ | JObj _ => true
  end.

(** [ToString], as a template literal or [+] with a string applies it. *)
Fixpoint to_string (v : JValue) : string :=
  match v with
  | JUndefined => "undefined"
  | JNull => "null"
  | JBool true => "true"
  | JBool false => "false"
  | JNum n => pretty n
  | JStr s => s
  | JArr items =>
      (fix join (l : list JValue) : string :=
         match l with
         | [] => ""
         | x :: rest =>
             let sx := match x with JUndefined | JNull => "" | _ => to_string x end in
             match rest with
             | [] => sx
             | _ :: _ => sx +:+ "," +:+ join rest
             end
         end) items
  | JObj _ => "[object Object]"
  end.

(** Own property lookup in an object literal: the first binding of the key. *)
Fixpoint assoc (k : string) (fields : list (string * JValue)) : option JValue :=
  match fields with
  | [] => None
  | (k', v) :: rest => if String.eqb k k' then Some v else assoc k rest
  end.

(** [o.k = v] on an object: overwrite the property in place if it exists,
    add it last otherwise. *)
Fixpoint assoc_set (k : string) (v : JValue) (fields : list (string * JValue))
  : list (string * JValue) :=
  match fields with
  | [] => [(k, v)]
  | (k', v') :: rest =>
      if String.eqb k k' then (k, v) :: rest else (k', v') :: assoc_set k v rest
  end.

(** [v.k].  Reading a property of [undefined] or [null] throws; an object
    answers with its own property or [undefined]; arrays and strings have
    [length]; any other property name used by the worker ([more_items],
    [assets], [event], ...) is not defined on arrays and primitives. *)
Definition get_prop (v : JValue) (k : string) : Completion JValue :=
  match v with
  | JUndefined =>
      Throw (TypeError ("Cannot read properties of undefined (reading '" +:+ k +:+ "')"))
  | JNull =>
      Throw (TypeError ("Cannot read properties of null (reading '" +:+ k +:+ "')"))
  | JObj fields => Normal (default JUndefined (assoc k fields))
  | JArr items =>
      Normal (if String.eqb k "length" then JNum (Z.of_nat (length items)) else JUndefined)
  | JStr s =>
      Normal (if String.eqb k "length" then JNum (Z.of_nat (String.length s)) else JUndefined)
  | JBool _ | JNum _ => Normal JUndefined
  end.

(** [v.k = x] for a [v] that has been read from already (so it is neither
    [undefined] nor [null]).  On an object the property is written; a write
    to a property of a primitive is dropped.  The worker only writes to a
    value whose [more_items] was truthy, which is always an object
    (lemma [truthy_prop_is_object] below). *)
Definition set_prop (v : JValue) (k : string) (x : JValue) : Completion JValue :=
  match v with
  | JUndefined =>
      Throw (TypeError ("Cannot set properties of undefined (setting '" +:+ k +:+ "')"))
  | JNull =>
      Throw (TypeError ("Cannot set properties of null (setting '" +:+ k +:+ "')"))
  | JObj fields => Normal (JObj (assoc_set k x fields))
  | _ => Normal v
  end.

(** [a || b]. *)
Definition js_or (a b : JValue) : JValue := if truthy a then a else b.

(** [a === b] against a string literal. *)
Definition strict_eq_str (v : JValue) (s : string) : bool :=
  match v with
  | JStr s' => String.eqb s' s
  | _ => false
  end.

End JS.
Export JS.

(** ** The browser as seen by the worker *)

(** A [fetch] call: the URL and the [headers] of its options (none when
    [fetch] is called with a URL only). *)
Record Request : Type := mkRequest {
  req_url : string;
  req_headers : list (string * string)
}.

(** What the worker reads of a [Response]: [ok], [statusText], and the
    settlement of the promises returned by [text()] and [json()] (body
    decoding and [JSON.parse] are the platform's; [json()] rejects with a
    [SyntaxError] on a body that is not JSON). *)
Record Response : Type := mkResponse {
  resp_ok : bool;
  resp_statusText : string;
  resp_text : Completion string;
  resp_json : Completion JValue
}.

(** A registered content script, as passed to [browser.scripting]. *)
Record ContentScript : Type := mkContentScript {
  cs_id : string;
  cs_js : list string;
  cs_matches : list string;
  cs_runAt : string
}.

#[global] Instance ContentScript_eq_dec : EqDecision ContentScript.
Proof. solve_decision. Defined.

(** Calls made to the browser, in the order they are made. *)
Inductive Event : Type :=
| EvFetch (req : Request)
| EvSendMessage (tabId : Z) (message : JValue)
| EvExecuteScript (tabId : Z) (files : list string)
| EvGetRegistered (ids : list string)
| EvRegister (scripts : list ContentScript)
| EvUpdate (scripts : list ContentScript)
| EvUnregister (ids : list string)
| EvRespond (envelope : JValue)
| EvConsole (level : string) (label : string) (args : list JValue)
| EvUnhandledRejection (e : JsError).

(** The parts of the browser whose answers the worker cannot predict: the
    network, the tabs, and whether the scripting API refuses a script with
    no match pattern.  Each oracle sees the calls made so far. *)
Record Host : Type := mkHost {
  host_fetch : list Event -> Request -> Completion Response;
  host_sendMessage : list Event -> Z -> JValue -> Completion JValue;
  host_executeScript : list Event -> Z -> list string -> Completion unit;
  host_rejects_empty_matches : bool
}.

(** The state that persists between calls: the content scripts registered
    with [browser.scripting], by id, and the calls made so far. *)
Record World : Type := mkWorld {
  registered : gmap string ContentScript;
  trace : list Event
}.

Definition initial_world : World := mkWorld ∅ [].

(** ** Computations: state passing with exceptions *)

Definition M (A : Type) : Type := World -> Completion A * World.

Definition ret {A} (a : A) : M A := fun w => (Normal a, w).

Definition throw {A} (e : JsError) : M A := fun w => (Throw e, w).

Definition bind {A B} (m : M A) (k : A -> M B) : M B :=
  fun w =>
    match m w with
    | (Normal a, w') => k a w'
    | (Throw e, w') => (Throw e, w')
    end.

(** Completion of a pure step, or settlement of a promise being awaited. *)
Definition lift {A} (c : Completion A) : M A := fun w => (c, w).

(** [try { body } catch (error) { handler }]. *)
Definition try_catch {A} (body : M A) (handler : JsError -> M A) : M A :=
  fun w =>
    match body w with
    | (Normal a, w') => (Normal a, w')
    | (Throw e, w') => handler e w'
    end.

Definition log (ev : Event) : M unit :=
  fun w => (Normal tt, mkWorld (registered w) (trace w ++ [ev])).

Declare Scope js_scope.
Delimit Scope js_scope with js.
Notation "x <- m ;; k" := (bind m (fun x => k))
  (at level 100, m at next level, right associativity) : js_scope.
Notation "m ;; k" := (bind m (fun _ => k))
  (at level 100, right associativity) : js_scope.
Local Open Scope js_scope.

(** An [async] function is modelled by its body, of type [M A]: [Throw] is
    the rejection of the promise it returns, and [await f(...)] is [bind].
    Where the source handles the promise itself ([then], [catch], a call
    whose promise is dropped), the promise is represented by its
    settlement.  Calling an [async] function never throws to the caller:
    whatever its body does is in the promise. *)
Definition Promise (A : Type) : Type := Completion A.

Definition call_async {A} (body : M A) : M (Promise A) :=
  fun w => let (c, w') := body w in (Normal c, w').

Definition await {A} (p : Promise A) : M A := lift p.

(** [p.then(onFulfilled)] and [p.catch(onRejected)]. *)
Definition promise_then {A B} (p : Promise A) (onFulfilled : A -> M B) : M (Promise B) :=
  match p with
  | Normal a => call_async (onFulfilled a)
  | Throw e => ret (Throw e)
  end.

Definition promise_catch {A} (p : Promise A) (onRejected : JsError -> M A) : M (Promise A) :=
  match p with
  | Normal a => ret (Normal a)
  | Throw e => call_async (onRejected e)
  end.

(** Calling an [async] function and dropping its promise: a rejection
    nobody handles is reported by the runtime and goes nowhere else. *)
Definition spawn {A} (body : M A) : M unit :=
  p <- call_async body ;;
  match p with
  | Normal _ => ret tt
  | Throw e => log (EvUnhandledRejection e)
  end.

Section Browser.

Variable host : Host.

(** [fetch(url, options)]: rejects on a network failure, resolves with the
    response otherwise, whatever its status. *)
Definition fetch (req : Request) : M Response :=
  fun w => (host_fetch host (trace w) req,
            mkWorld (registered w) (trace w ++ [EvFetch req])).

(** [browser.tabs.sendMessage(tabId, message)]. *)
Definition tabs_sendMessage (tabId : Z) (message : JValue) : M JValue :=
  fun w => (host_sendMessage host (trace w) tabId message,
            mkWorld (registered w) (trace w ++ [EvSendMessage tabId message])).

(** [browser.scripting.executeScript({ target: { tabId }, files })]. *)
Definition scripting_executeScript (tabId : Z) (files : list string) : M unit :=
  fun w => (host_executeScript host (trace w) tabId files,
            mkWorld (registered w) (trace w ++ [EvExecuteScript tabId files])).

(** [browser.scripting.getRegisteredContentScripts({ ids })]: the
    registered scripts among [ids]. *)
Definition scripting_getRegisteredContentScripts (ids : list string)
  : M (list ContentScript) :=
  fun w => (Normal (omap (fun i => registered w !! i) ids),
            mkWorld (registered w) (trace w ++ [EvGetRegistered ids])).

Definition refused_matches (s : ContentScript) : bool :=
  host_rejects_empty_matches host && bool_decide (cs_matches s = []).

Definition insert_scripts (scripts : list ContentScript) (r : gmap string ContentScript)
  : gmap string ContentScript :=
  foldl (fun acc s => <[cs_id s := s]> acc) r scripts.

(** [browser.scripting.registerContentScripts(scripts)]: rejects, and
    registers nothing, when an id is already registered. *)
Definition scripting_registerContentScripts (scripts : list ContentScript) : M unit :=
  fun w =>
    let w' := mkWorld (registered w) (trace w ++ [EvRegister scripts]) in
    if existsb refused_matches scripts then
      (Throw (Error "Script must specify at least one match"), w')
    else if bool_decide (Forall (fun s => registered w !! cs_id s = None) scripts) then
      (Normal tt, mkWorld (insert_scripts scripts (registered w)) (trace w'))
    else (Throw (Error "Duplicate script ID"), w').

(** [browser.scripting.updateContentScripts(scripts)]: rejects, and updates
    nothing, when an id is not registered. *)
Definition scripting_updateContentScripts (scripts : list ContentScript) : M unit :=
  fun w =>
    let w' := mkWorld (registered w) (trace w ++ [EvUpdate scripts]) in
    if existsb refused_matches scripts then
      (Throw (Error "Script must specify at least one match"), w')
    else if bool_decide (Forall (fun s => is_Some (registered w !! cs_id s)) scripts) then
      (Normal tt, mkWorld (insert_scripts scripts (registered w)) (trace w'))
    else (Throw (Error "Nonexistent script ID"), w').

(** [browser.scripting.unregisterContentScripts({ ids })]: rejects, and
    removes nothing, when an id is not registered. *)
Definition scripting_unregisterContentScripts (ids : list string) : M unit :=
  fun w =>
    let w' := mkWorld (registered w) (trace w ++ [EvUnregister ids]) in
    if bool_decide (Forall (fun i => is_Some (registered w !! i)) ids) then
      (Normal tt, mkWorld (foldl (fun acc i => delete i acc) (registered w) ids) (trace w'))
    else (Throw (Error "Nonexistent script ID"), w').

(** The [respond] callback of a message listener. *)
Definition sendResponse (envelope : JValue) : M JValue :=
  log (EvRespond envelope) ;; ret JUndefined.

Definition console (level label : string) (args : list JValue) : M unit :=
  log (EvConsole level label args).

End Browser.

(** ** The regular expression of [getSteamId] *)

Module Regex.

(** The expression [/<steamID64>(\d{17})<\/steamID64>/] is a sequence of
    atoms that each consume one character, with one capture group. *)
Inductive Atom : Type :=
| Lit (c : ascii)
| Digit.

Record Pattern : Type := mkPattern {
  before_group : list Atom;
  group : list Atom;
  after_group : list Atom
}.

(** [\d] without the [u] and [v] flags: the ten ASCII digits. *)
Definition is_digit (c : ascii) : bool :=
  (48 <=? nat_of_ascii c) && (nat_of_ascii c <=? 57).

Definition atom_matches (a : Atom) (c : ascii) : bool :=
  match a with
  | Lit c' => Ascii.eqb c c'
  | Digit => is_digit c
  end.

(** Consume the atoms at the head of the input: what they matched and what
    is left. *)
Fixpoint match_atoms (atoms : list Atom) (input : list ascii)
  : option (list ascii * list ascii) :=
  match atoms with
  | [] => Some ([], input)
  | a :: atoms' =>
      match input with
      | [] => None
      | c :: input' =>
          if atom_matches a c then
            match match_atoms atoms' input' with
            | Some (matched, rest) => Some (c :: matched, rest)
            | None => None
            end
          else None
      end
  end.

(** The characters a sequence of atoms accepts, one atom per character. *)
Definition atoms_accept (atoms : list Atom) (chars : list ascii) : Prop :=
  Forall2 (fun a c => atom_matches a c = true) atoms chars.

(** A match anchored at the head of the input: the whole match and the
    capture group. *)
Definition match_here (p : Pattern) (input : list ascii)
  : option (list ascii * list ascii) :=
  match match_atoms (before_group p) input with
  | None => None
  | Some (m1, rest1) =>
      match match_atoms (group p) rest1 with
      | None => None
      | Some (g, rest2) =>
          match match_atoms (after_group p) rest2 with
          | None => None
          | Some (m3, _) => Some (m1 ++ g ++ m3, g)
          end
      end
  end.

(** The leftmost match, trying every start position in turn. *)
Fixpoint search (p : Pattern) (input : list ascii) : option (list ascii * list ascii) :=
  match match_here p input with
  | Some r => Some r
  | None =>
      match input with
      | [] => None
      | _ :: input' => search p input'
      end
  end.

(** [str.match(re)] for a non-global expression with one group: [null], or
    an array whose element 0 is the match and element 1 the group. *)
Definition string_match (p : Pattern) (str : string) : option (string * string) :=
  match search p (list_ascii_of_string str) with
  | None => None
  | Some (whole, g) => Some (string_of_list_ascii whole, string_of_list_ascii g)
  end.

Definition lits (s : string) : list Atom := map Lit (list_ascii_of_string s).

Definition steamID64_re : Pattern :=
  mkPattern (lits "<steamID64>") (repeat Digit 17) (lits "</steamID64>").

(** What the interface says the profile document contains when the user is
    logged in: the opening tag, exactly 17 digits, the closing tag. *)
Definition contains_steamID64 (body : string) : Prop :=
  exists (before digits after : list ascii),
    list_ascii_of_string body =
      before ++ list_ascii_of_string "<steamID64>" ++ digits
             ++ list_ascii_of_string "</steamID64>" ++ after
    /\ length digits = 17
    /\ Forall (fun c => is_digit c = true) digits.

End Regex.

(** ** The worker *)

Section Worker.

Variable host : Host.

(** [getSteamId]. *)
Definition getSteamId : M JValue :=
  profileXML <- (r <- fetch host (mkRequest "https://steamcommunity.com/my?xml=1" []) ;;
                 lift (resp_text r)) ;;
  let match_ := Regex.string_match Regex.steamID64_re profileXML in
  ret (match match_ with
       | Some (_, group1) => JStr group1
       | None => JNull
       end).

(** The function found at [recv.concat]: reading it throws on [undefined]
    and [null]; calling what is not a function throws when the call is
    made, after the arguments have been evaluated. *)
Definition get_concat (recv : JValue) : Completion (JValue -> Completion JValue) :=
  match recv with
  | JUndefined =>
      Throw (TypeError "Cannot read properties of undefined (reading 'concat')")
  | JNull =>
      Throw (TypeError "Cannot read properties of null (reading 'concat')")
  | JArr xs =>
      Normal (fun arg => Normal (JArr (xs ++ match arg with JArr ys => ys | _ => [arg] end)))
  | JStr s => Normal (fun arg => Normal (JStr (s +:+ to_string arg)))
  | JBool _ | JNum _ | JObj _ =>
      Normal (fun _ => Throw (TypeError "concat is not a function"))
  end.

(** [fetchInventory]. *)
Definition fetchInventory (steamId appId contextId : JValue) : M JValue :=
  let baseFetchUrl :=
    "https://steamcommunity.com/inventory/" +:+ to_string steamId +:+ "/"
      +:+ to_string appId +:+ "/" +:+ to_string contextId in
  let fetchUrl := baseFetchUrl +:+ "?l=english&count=75" in
  let fetchOptions :=
    [ ("Referrer", "https://steamcommunity.com/profiles/" +:+ to_string steamId +:+ "/inventory/");
      ("Accept", "application/json") ] in
  response <- fetch host (mkRequest fetchUrl fetchOptions) ;;
  (if negb (resp_ok response)
   then throw (Error ("Failed to fetch inventory: " +:+ resp_statusText response))
   else ret tt) ;;
  inventory <- lift (resp_json response) ;;
  more_items <- lift (get_prop inventory "more_items") ;;
  if truthy more_items then
    lastAssetId <- lift (get_prop inventory "last_assetid") ;;
    let fetchUrl :=
      baseFetchUrl +:+ "?l=english&count=2000&start_assetid=" +:+ to_string lastAssetId in
    response <- fetch host (mkRequest fetchUrl fetchOptions) ;;
    (if negb (resp_ok response)
     then throw (Error ("Failed to fetch additional inventory: " +:+ resp_statusText response))
     else ret tt) ;;
    additionalInventory <- lift (resp_json response) ;;
    (* inventory.assets = inventory.assets.concat(additionalInventory.assets || []) *)
    assets1 <- lift (get_prop inventory "assets") ;;
    concat1 <- lift (get_concat assets1) ;;
    assets2 <- lift (get_prop additionalInventory "assets") ;;
    assets <- lift (concat1 (js_or assets2 (JArr []))) ;;
    inventory <- lift (set_prop inventory "assets" assets) ;;
    (* inventory.descriptions = inventory.descriptions.concat(additionalInventory.descriptions || []) *)
    descriptions1 <- lift (get_prop inventory "descriptions") ;;
    concat2 <- lift (get_concat descriptions1) ;;
    descriptions2 <- lift (get_prop additionalInventory "descriptions") ;;
    descriptions <- lift (concat2 (js_or descriptions2 (JArr []))) ;;
    inventory <- lift (set_prop inventory "descriptions" descriptions) ;;
    last_assetid <- lift (get_prop additionalInventory "last_assetid") ;;
    inventory <- lift (set_prop inventory "last_assetid" last_assetid) ;;
    more_items <- lift (get_prop additionalInventory "more_items") ;;
    inventory <- lift (set_prop inventory "more_items" more_items) ;;
    ret inventory
  else
    ret inventory.

(** [getUserInventory]. *)
Definition getUserInventory (appId contextId : JValue) : M JValue :=
  steamId <- getSteamId ;;
  inventory <- fetchInventory steamId appId contextId ;;
  ret inventory.

(** How many more times [ensureContentScript] may call itself: once when
    [attempt] is falsy, never otherwise. *)
Definition retries_left (attempt : nat) : nat :=
  match attempt with
  | 0 => 1
  | S _ => 0
  end.

Definition is_undefined (v : JValue) : bool :=
  match v with
  | JUndefined => true
  | _ => false
  end.

(** [ensureContentScript].  The recursion is the source's: the call in the
    [catch] block, made only when [attempt] is falsy, with [attempt = 1]. *)
Equations ensureContentScript (tabId : Z) (attempt : nat) (w : World)
  : Completion bool * World by wf (retries_left attempt) lt :=
  ensureContentScript tabId attempt w :=
    try_catch
      (res <- tabs_sendMessage host tabId (JObj [("event", JStr "content-script-check")]) ;;
       if is_undefined res
       then throw (Error "No response from content script")
       else ret true)
      (fun error =>
         scripting_executeScript host tabId ["scripts/content-script.js"] ;;
         match decide (attempt = 0) with
         | left _ => fun w' => ensureContentScript tabId 1 w'
         | right _ =>
             throw (Error ("Failed to inject content script into tab "
                             +:+ to_string (JNum tabId)))
         end) w.

(** [executeCommand]. *)
Definition executeCommand (fn : M (Promise JValue)) (respond : JValue -> M JValue)
  : M JValue :=
  p <- fn ;;
  p1 <- promise_then p
          (fun payload => respond (JObj [("success", JBool true); ("payload", payload)])) ;;
  p2 <- promise_catch p1
          (fun err => respond (JObj [("success", JBool false);
                                     ("error", JStr (err_message err))])) ;;
  await p2.

(** The [browser.action.onClicked] listener. *)
Definition action_onClicked (tab_id : Z) : M unit :=
  ensureContentScript tab_id 0 ;;
  ret tt.

(** The [browser.runtime.onMessage] listener.  It is not [async]: it starts
    the command, drops the promise and returns [true]. *)
Definition runtime_onMessage (message sender : JValue) (respond : JValue -> M JValue)
  : M bool :=
  event <- lift (get_prop message "event") ;;
  data <- lift (get_prop message "data") ;;
  (if strict_eq_str event "get-inventory" then
     spawn (executeCommand
              (appId <- lift (get_prop data "appId") ;;
               contextId <- lift (get_prop data "contextId") ;;
               call_async (getUserInventory appId contextId))
              respond)
   else
     console "warn" "Unknown event" [event]) ;;
  ret true.

Definition content_script (matches : list string) : ContentScript :=
  mkContentScript "content-script" ["scripts/content-script.js"] matches "document_idle".

(** [[...new Set(items)]]: the items in order of first occurrence. *)
Definition Set_spread (items : list string) : list string :=
  foldl (fun seen x => if bool_decide (x ∈ seen) then seen else seen ++ [x]) [] items.

Definition js_strings (l : list string) : JValue := JArr (map JStr l).

(** The [browser.permissions.onAdded] listener; [origins] is
    [permissions.origins], an array of strings. *)
Definition permissions_onAdded (origins : list string) : M unit :=
  let newOrigins := origins in
  if length newOrigins =? 0 then ret tt else
  console "debug" "Permission added for" [js_strings newOrigins] ;;
  scripts <- scripting_getRegisteredContentScripts ["content-script"] ;;
  let activeScript := head scripts in
  let newScript :=
    content_script
      (Set_spread (match activeScript with Some s => cs_matches s | None => [] end
                   ++ newOrigins)) in
  match activeScript with
  | Some _ => scripting_updateContentScripts host [newScript]
  | None => scripting_registerContentScripts host [newScript]
  end ;;
  console "debug" "Updated content script following origin permission change"
    [js_strings (cs_matches newScript)].

(** The [browser.permissions.onRemoved] listener. *)
Definition permissions_onRemoved (origins : list string) : M unit :=
  let removedOrigins := origins in
  if length removedOrigins =? 0 then ret tt else
  console "debug" "Removed permission for" [js_strings removedOrigins] ;;
  scripts <- scripting_getRegisteredContentScripts ["content-script"] ;;
  let activeScript := head scripts in
  let newOrigins :=
    match activeScript with
    | Some s =>
        foldl (fun newOrigins origin =>
                 if bool_decide (origin ∈ removedOrigins) then newOrigins
                 else newOrigins ++ [origin])
              [] (cs_matches s)
    | None => []
    end in
  let newScript := content_script newOrigins in
  match activeScript with
  | Some _ =>
      if negb (length (cs_matches newScript) =? 0)
      then scripting_updateContentScripts host [newScript]
      else scripting_unregisterContentScripts ["content-script"]
  | None =>
      if negb (length (cs_matches newScript) =? 0)
      then scripting_registerContentScripts host [newScript]
      else ret tt
  end ;;
  console "debug" "Updated content script following origin permission change"
    [js_strings (cs_matches newScript)].

End Worker.

(** ** Reading a trace *)

Definition requests (t : list Event) : list Request :=
  omap (fun ev => match ev with EvFetch req => Some req | _ => None end) t.

Definition injections (t : list Event) : list (Z * list string) :=
  omap (fun ev => match ev with
                  | EvExecuteScript tabId files => Some (tabId, files)
                  | _ => None
                  end) t.

Definition responses (t : list Event) : list JValue :=
  omap (fun ev => match ev with EvRespond envelope => Some envelope | _ => None end) t.

Definition unhandled (t : list Event) : list JsError :=
  omap (fun ev => match ev with EvUnhandledRejection e => Some e | _ => None end) t.

Definition updates (t : list Event) : list (list ContentScript) :=
  omap (fun ev => match ev with EvUpdate scripts => Some scripts | _ => None end) t.

Definition unregistrations (t : list Event) : list (list string) :=
  omap (fun ev => match ev with EvUnregister ids => Some ids | _ => None end) t.

(** The world after one more call. *)
Definition after (w : World) (ev : Event) : World :=
  mkWorld (registered w) (trace w ++ [ev]).

(** The two requests of [fetchInventory], as the source builds them. *)
Definition profile_request : Request :=
  mkRequest "https://steamcommunity.com/my?xml=1" [].

Definition inventory_url (steamId appId contextId : JValue) : string :=
  "https://steamcommunity.com/inventory/" +:+ to_string steamId +:+ "/"
    +:+ to_string appId +:+ "/" +:+ to_string contextId.

Definition inventory_headers (steamId : JValue) : list (string * string) :=
  [ ("Referrer", "https://steamcommunity.com/profiles/" +:+ to_string steamId +:+ "/inventory/");
    ("Accept", "application/json") ].

Definition page1_request (steamId appId contextId : JValue) : Request :=
  mkRequest (inventory_url steamId appId contextId +:+ "?l=english&count=75")
            (inventory_headers steamId).

Definition page2_request (steamId appId contextId cursor : JValue) : Request :=
  mkRequest (inventory_url steamId appId contextId
               +:+ "?l=english&count=2000&start_assetid=" +:+ to_string cursor)
            (inventory_headers steamId).

(** The two shapes of the response envelope. *)
Definition envelope_success (payload : JValue) : JValue :=
  JObj [("success", JBool true); ("payload", payload)].

Definition envelope_failure (message : string) : JValue :=
  JObj [("success", JBool false); ("error", JStr message)].

Definition is_envelope (v : JValue) : Prop :=
  (exists payload, v = envelope_success payload)
  \/ (exists message, v = envelope_failure message).

(** What [x || []] is when [x] is a sequence or is missing: the sequence, or
    the empty one for a falsy [x] ([undefined] when the property is absent). *)
Definition sequence_or_absent (x : JValue) : option (list JValue) :=
  match x with
  | JArr items => Some items
  | _ => if truthy x then None else Some []
  end.

(** A probe that fails: the promise rejects, or resolves with [undefined]. *)
Definition probe_fails (c : Completion JValue) : Prop :=
  match c with
  | Throw _ => True
  | Normal res => res = JUndefined
  end.

Definition probe_always_fails (host : Host) (tabId : Z) : Prop :=
  forall t message, probe_fails (host_sendMessage host t tabId message).

Definition injection_error (tabId : Z) : JsError :=
  Error ("Failed to inject content script into tab " +:+ to_string (JNum tabId)).

(** The probe and the injected file, as [ensureContentScript] writes them. *)
Definition probe_message : JValue := JObj [("event", JStr "content-script-check")].

Definition content_script_files : list string := ["scripts/content-script.js"].

(** A computation that only computes: it leaves the world as it is. *)
Definition pure {A} (m : M A) : Prop := forall w, snd (m w) = w.

(** A computation that only adds calls to the trace. *)
Definition grows {A} (m : M A) : Prop :=
  forall w, exists t, trace (snd (m w)) = trace w ++ t.

(** A computation whose only calls are requests. *)
Definition only_fetches {A} (m : M A) : Prop :=
  forall w, registered (snd (m w)) = registered w
            /\ exists reqs, trace (snd (m w)) = trace w ++ map EvFetch reqs.

(** The envelope for a settled promise. *)
Definition envelope_of (p : Promise JValue) : JValue :=
  match p with
  | Normal payload => envelope_success payload
  | Throw e => envelope_failure (err_message e)
  end.

(** More readers of a trace. *)
Definition probes (t : list Event) : list (Z * JValue) :=
  omap (fun ev => match ev with
                  | EvSendMessage tabId message => Some (tabId, message)
                  | _ => None
                  end) t.

Definition registrations (t : list Event) : list (list ContentScript) :=
  omap (fun ev => match ev with EvRegister scripts => Some scripts | _ => None end) t.

(** The match patterns currently registered for the companion script:
    [activeScript?.matches ?? []]. *)
Definition current_matches (w : World) : list string :=
  match registered w !! "content-script" with
  | Some s => cs_matches s
  | None => []
  end.

(** A registration as the two permission listeners leave it: the fixed
    attributes of [newScript], at least one match pattern, none twice. *)
Definition well_formed_registration (w : World) : Prop :=
  match registered w !! "content-script" with
  | None => True
  | Some s =>
      s = content_script (cs_matches s) /\ cs_matches s <> [] /\ NoDup (cs_matches s)
  end.

(** An occurrence of the steamID64 element at offset [n] of a document. *)
Definition steamID64_at (chars : list ascii) (n : nat) (digits : list ascii) : Prop :=
  exists before after,
    chars = before ++ list_ascii_of_string "<steamID64>" ++ digits
                   ++ list_ascii_of_string "</steamID64>" ++ after
    /\ length before = n
    /\ length digits = 17
    /\ Forall (fun c => Regex.is_digit c = true) digits.

(** The calls of one handshake, in order. *)
Definition handshake_calls (tabId : Z) : list Event :=
  [EvSendMessage tabId probe_message; EvExecuteScript tabId content_script_files;
   EvSendMessage tabId probe_message; EvExecuteScript tabId content_script_files].

(** One [Set.prototype.add] on the values of a set kept in insertion order:
    the step of [Set_spread]. *)
Definition add_origin (seen : list string) (x : string) : list string :=
  if bool_decide (x ∈ seen) then seen else seen ++ [x].

(** What [fetchInventory] does with the answer to its second request:
    check it, parse it and merge it into the first page. *)
Definition merge_second_page (inventory : JValue) (response : Response) : M JValue :=
  (if negb (resp_ok response)
   then throw (Error ("Failed to fetch additional inventory: " +:+ resp_statusText response))
   else ret tt) ;;
  additionalInventory <- lift (resp_json response) ;;
  assets1 <- lift (get_prop inventory "assets") ;;
  concat1 <- lift (get_concat assets1) ;;
  assets2 <- lift (get_prop additionalInventory "assets") ;;
  assets <- lift (concat1 (js_or assets2 (JArr []))) ;;
  inventory <- lift (set_prop inventory "assets" assets) ;;
  descriptions1 <- lift (get_prop inventory "descriptions") ;;
  concat2 <- lift (get_concat descriptions1) ;;
  descriptions2 <- lift (get_prop additionalInventory "descriptions") ;;
  descriptions <- lift (concat2 (js_or descriptions2 (JArr []))) ;;
  inventory <- lift (set_prop inventory "descriptions" descriptions) ;;
  last_assetid <- lift (get_prop additionalInventory "last_assetid") ;;
  inventory <- lift (set_prop inventory "last_assetid" last_assetid) ;;
  more_items <- lift (get_prop additionalInventory "more_items") ;;
  inventory <- lift (set_prop inventory "more_items" more_items) ;;
  ret inventory.

(** What [Array.prototype.concat] appends for one argument: the elements of
    an array, any other value as it is. *)
Definition concat_spread (arg : JValue) : list JValue :=
  match arg with
  | JArr ys => ys
  | _ => [arg]
  end.
(** ** Scenarios used as concrete inputs *)
Module Scenario.

Definition response_200 (body : string) (parsed : Completion JValue) : Response :=
  mkResponse true "OK" (Normal body) parsed.

Definition not_json : Completion JValue :=
  Throw (SyntaxError "Unexpected token '<'").

(** A logged-out session: the profile URL answers with a login page. *)
Definition logged_out : Host :=
  mkHost (fun _ req =>
            if String.eqb (req_url req) "https://steamcommunity.com/my?xml=1"
            then Normal (response_200 "<html><title>Sign In</title></html>" not_json)
            else Normal (mkResponse false "Bad Request" (Normal "null") (Normal JNull)))
         (fun _ _ _ => Normal (JObj []))
         (fun _ _ _ => Normal tt)
         true.

(** The profile endpoint is down: status 500. *)
Definition profile_500 : Host :=
  mkHost (fun _ _ =>
            Normal (mkResponse false "Internal Server Error"
                      (Normal "Internal Server Error") not_json))
         (fun _ _ _ => Normal (JObj []))
         (fun _ _ _ => Normal tt)
         true.

(** No companion script in the tab, and the injected one never answers. *)
Definition no_receiver : Host :=
  mkHost (fun _ _ => Throw (TypeError "Failed to fetch"))
         (fun _ _ _ =>
            Throw (Error "Could not establish connection. Receiving end does not exist."))
         (fun _ _ _ => Normal tt)
         true.

(** A page the extension may not script: the probe finds nobody and the
    injection is refused. *)
Definition restricted_page : Host :=
  mkHost (fun _ _ => Throw (TypeError "Failed to fetch"))
         (fun _ _ _ =>
            Throw (Error "Could not establish connection. Receiving end does not exist."))
         (fun _ _ _ => Throw (Error "Cannot access contents of the page"))
         true.

(** The companion script is there and answers the probe with [{}]. *)
Definition script_present : Host :=
  mkHost (fun _ _ => Throw (TypeError "Failed to fetch"))
         (fun _ _ _ => Normal (JObj []))
         (fun _ _ _ => Normal tt)
         true.

(** A host that resolves the probe with [undefined] when nobody answers. *)
Definition silent_probe : Host :=
  mkHost (fun _ _ => Throw (TypeError "Failed to fetch"))
         (fun _ _ _ => Normal JUndefined)
         (fun _ _ _ => Normal tt)
         true.

Definition steamId : JValue := JStr "76561198000000001".

Definition asset (assetid : string) : JValue :=
  JObj [("appid", JNum 730); ("contextid", JStr "2"); ("assetid", JStr assetid)].

Definition description (classid : string) : JValue :=
  JObj [("appid", JNum 730); ("classid", JStr classid)].

(** An inventory that fits in one page. *)
Definition small_inventory : JValue :=
  JObj [("assets", JArr [asset "1001"]);
        ("descriptions", JArr [description "c1"]);
        ("more_items", JBool false);
        ("last_assetid", JNull);
        ("total_inventory_count", JNum 1)].

Definition single_page : Host :=
  mkHost (fun _ _ => Normal (response_200 "{...}" (Normal small_inventory)))
         (fun _ _ _ => Normal (JObj []))
         (fun _ _ _ => Normal tt)
         true.

(** An inventory in two pages; the second page has assets and no
    descriptions. *)
Definition first_page : JValue :=
  JObj [("assets", JArr [asset "1001"; asset "1002"]);
        ("descriptions", JArr [description "c1"]);
        ("more_items", JBool true);
        ("last_assetid", JStr "1002");
        ("total_inventory_count", JNum 3)].

Definition second_page : JValue :=
  JObj [("assets", JArr [asset "1003"]);
        ("total_inventory_count", JNum 3)].

Definition two_pages : Host :=
  mkHost (fun t _ =>
            match t with
            | [] => Normal (response_200 "{...}" (Normal first_page))
            | _ :: _ => Normal (response_200 "{...}" (Normal second_page))
            end)
         (fun _ _ _ => Normal (JObj []))
         (fun _ _ _ => Normal tt)
         true.

(** A world where the companion script is registered for some origins. *)
Definition registered_for (matches : list string) : World :=
  mkWorld {[ "content-script" := content_script matches ]} [].

Definition get_inventory_message : JValue :=
  JObj [("event", JStr "get-inventory");
        ("data", JObj [("appId", JNum 730); ("contextId", JNum 2)])].

End Scenario.


(** ** More scenarios: recoveries and malformed answers *)
Module Edge.

(** The tab has no companion script until one is injected; the injected
    script answers the probe. *)
Definition injectable : Host :=
  mkHost (fun _ _ => Throw (TypeError "Failed to fetch"))
         (fun t _ _ =>
            match injections t with
            | [] => Throw (Error "Could not establish connection. Receiving end does not exist.")
            | _ :: _ => Normal (JObj [])
            end)
         (fun _ _ _ => Normal tt)
         true.

(** A service that answers the first request with [first] and any later
    one with [second]. *)
Definition pages (first second : Completion Response) : Host :=
  mkHost (fun t _ =>
            match requests t with
            | [] => first
            | _ :: _ => second
            end)
         (fun _ _ _ => Normal (JObj []))
         (fun _ _ _ => Normal tt)
         true.

Definition ok_json (v : JValue) : Completion Response :=
  Normal (mkResponse true "OK" (Normal "{...}") (Normal v)).

Definition status (text : string) : Completion Response :=
  Normal (mkResponse false text (Normal "") (Throw (SyntaxError "Unexpected end of JSON input"))).

(** A first page that announces more items and has no [assets]. *)
Definition first_page_without_assets : JValue :=
  JObj [("descriptions", JArr []);
        ("more_items", JNum 1);
        ("last_assetid", JStr "1002")].

(** A second page whose [assets] is an object keyed by asset id. *)
Definition second_page_keyed : JValue :=
  JObj [("assets", JObj [("1003", Scenario.asset "1003")]);
        ("descriptions", JArr [])].

(** A signed-in session: the profile document carries the identifier, twice
    (the second time in a comment the user wrote). *)
Definition profile_document : string :=
  "<profile><steamID64>76561198000000001</steamID64><summary><steamID64>76561198000000002</steamID64></summary></profile>".

Definition signed_in : Host :=
  mkHost (fun t _ =>
            match requests t with
            | [] => Normal (mkResponse true "OK" (Normal profile_document)
                              (Throw (SyntaxError "Unexpected token '<'")))
            | _ :: _ => ok_json Scenario.small_inventory
            end)
         (fun _ _ _ => Normal (JObj []))
         (fun _ _ _ => Normal tt)
         true.

(** A response callback that fails the first time it is called (a closed
    port, say) and works afterwards. *)
Definition respond_failing_once (envelope : JValue) : M JValue :=
  fun w =>
    match responses (trace w) with
    | [] => (Throw (Error "Attempting to use a disconnected port object"),
             after w (EvRespond envelope))
    | _ :: _ => (Normal JUndefined, after w (EvRespond envelope))
    end.

Definition unknown_message : JValue :=
  JObj [("event", JStr "get-prices"); ("data", JObj [])].

End Edge.

(** * Facts *)

(** ** The regular expression *)

Module RegexFacts.
Import Regex.

Lemma match_atoms_sound atoms : forall input matched rest,
  match_atoms atoms input = Some (matched, rest) ->
  input = matched ++ rest /\ atoms_accept atoms matched.
Proof.
  induction atoms as [|a atoms IH]; intros input matched rest H; simpl in H.
  - inversion H; subst. split; [reflexivity | constructor].
  - destruct input as [|c input]; [discriminate|].
    destruct (atom_matches a c) eqn:Hc; [|discriminate].
    destruct (match_atoms atoms input) as [[m r]|] eqn:Hm; [|discriminate].
    inversion H; subst. destruct (IH _ _ _ Hm) as [-> Hacc].
    split; [reflexivity | constructor; assumption].
Qed.

Lemma match_atoms_complete atoms : forall matched rest,
  atoms_accept atoms matched ->
  match_atoms atoms (matched ++ rest) = Some (matched, rest).
Proof.
  induction atoms as [|a atoms IH]; intros matched rest H; inversion H; subst; simpl.
  - reflexivity.
  - rewrite H2. rewrite IH by assumption. reflexivity.
Qed.

Lemma lits_accept s chars :
  atoms_accept (lits s) chars <-> chars = list_ascii_of_string s.
Proof.
  unfold lits. generalize (list_ascii_of_string s) as l. clear s.
  intros l; revert chars. induction l as [|c l IH]; intros chars; simpl; split; intros H.
  - inversion H; reflexivity.
  - subst; constructor.
  - inversion H; subst. simpl in H2. apply Ascii.eqb_eq in H2. subst.
    f_equal. apply IH. assumption.
  - subst. constructor; [simpl; apply Ascii.eqb_refl | apply IH; reflexivity].
Qed.

Lemma digits_accept n chars :
  atoms_accept (repeat Digit n) chars <->
  length chars = n /\ Forall (fun c => is_digit c = true) chars.
Proof.
  revert chars; induction n as [|n IH]; intros chars; simpl; split; intros H.
  - inversion H; subst. split; [reflexivity | constructor].
  - destruct H as [H _]. destruct chars; [constructor | discriminate].
  - inversion H; subst. apply IH in H4 as [Hl Hd]. simpl in H2.
    split; [simpl; congruence | constructor; assumption].
  - destruct H as [Hl Hd]. destruct chars as [|c chars]; [discriminate|].
    inversion Hd; subst. constructor; [assumption|]. apply IH. split; [simpl in Hl; congruence | assumption].
Qed.

(** What an anchored match of the steamID64 expression means. *)
Lemma match_here_steamID64 input whole g :
  match_here steamID64_re input = Some (whole, g) <->
  exists after,
    input = list_ascii_of_string "<steamID64>" ++ g
              ++ list_ascii_of_string "</steamID64>" ++ after
    /\ whole = list_ascii_of_string "<steamID64>" ++ g ++ list_ascii_of_string "</steamID64>"
    /\ length g = 17 /\ Forall (fun c => is_digit c = true) g.
Proof.
  unfold match_here, steamID64_re; cbn [before_group group after_group]. split.
  - destruct (match_atoms (lits "<steamID64>") input) as [[m1 r1]|] eqn:H1; [|discriminate].
    destruct (match_atoms (repeat Digit 17) r1) as [[g' r2]|] eqn:H2; [|discriminate].
    destruct (match_atoms (lits "</steamID64>") r2) as [[m3 r3]|] eqn:H3; [|discriminate].
    intros H; inversion H; subst; clear H.
    apply match_atoms_sound in H1 as [-> A1], H2 as [-> A2], H3 as [-> A3].
    apply lits_accept in A1, A3. apply digits_accept in A2 as [Hl Hd]. subst.
    exists r3. repeat split; try assumption.
  - intros (after & -> & -> & Hl & Hd).
    rewrite match_atoms_complete by (apply lits_accept; reflexivity).
    rewrite match_atoms_complete by (apply digits_accept; split; assumption).
    rewrite match_atoms_complete by (apply lits_accept; reflexivity).
    reflexivity.
Qed.

Lemma search_None p input :
  search p input = None <->
  forall before after, input = before ++ after -> match_here p after = None.
Proof.
  induction input as [|c input IH]; simpl.
  - destruct (match_here p []) eqn:H; split.
    + discriminate.
    + intros H'. specialize (H' [] [] eq_refl). congruence.
    + intros _ before after E. symmetry in E.
      apply app_eq_nil in E as [_ ->]. assumption.
    + reflexivity.
  - destruct (match_here p (c :: input)) eqn:H; split.
    + discriminate.
    + intros H'. specialize (H' [] (c :: input) eq_refl). congruence.
    + intros H' [|b before] after E; simpl in E.
      * subst. assumption.
      * inversion E; subst. apply (proj1 IH H' before after eq_refl).
    + intros H'. apply IH. intros before after ->.
      apply (H' (c :: before) after). reflexivity.
Qed.

Lemma search_Some p input r :
  search p input = Some r ->
  exists before after, input = before ++ after /\ match_here p after = Some r.
Proof.
  induction input as [|c input IH]; simpl.
  - destruct (match_here p []) eqn:H; [|discriminate].
    intros [= <-]. exists [], []. split; [reflexivity | assumption].
  - destruct (match_here p (c :: input)) eqn:H.
    + intros [= <-]. exists [], (c :: input). split; [reflexivity | assumption].
    + intros H'. destruct (IH H') as (b & a & -> & Hm).
      exists (c :: b), a. split; [reflexivity | assumption].
Qed.

(** The expression finds nothing exactly in the documents that do not
    contain the pattern. *)
Lemma string_match_None body :
  string_match steamID64_re body = None <-> ~ contains_steamID64 body.
Proof.
  unfold string_match, contains_steamID64. split.
  - destruct (search steamID64_re (list_ascii_of_string body)) as [[wh g]|] eqn:Hs;
      [discriminate|]. intros _ (before & digits & after & E & Hl & Hd).
    pose proof (proj1 (search_None _ _) Hs before _ E) as Hm.
    assert (Hx : match_here steamID64_re
              (list_ascii_of_string "<steamID64>" ++ digits
                 ++ list_ascii_of_string "</steamID64>" ++ after)
            = Some (list_ascii_of_string "<steamID64>" ++ digits
                      ++ list_ascii_of_string "</steamID64>", digits)).
    { apply match_here_steamID64. exists after. repeat split; assumption. }
    congruence.
  - intros Hn. destruct (search steamID64_re (list_ascii_of_string body)) as [[wh g]|] eqn:Hs;
      [|reflexivity].
    exfalso. apply Hn. apply search_Some in Hs as (before & after & E & Hm).
    apply match_here_steamID64 in Hm as (after' & -> & _ & Hl & Hd).
    exists before, g, after'. repeat split; assumption.
Qed.

End RegexFacts.

(** ** Computations *)

Section MonadFacts.

Lemma pure_ret {A} (a : A) : pure (ret a).
Proof. intros w; reflexivity. Qed.

Lemma pure_throw {A} (e : JsError) : pure (@throw A e).
Proof. intros w; reflexivity. Qed.

Lemma pure_lift {A} (c : Completion A) : pure (lift c).
Proof. intros w; reflexivity. Qed.

Lemma pure_bind {A B} (m : M A) (k : A -> M B) :
  pure m -> (forall a, pure (k a)) -> pure (bind m k).
Proof.
  intros Hm Hk w. unfold bind. specialize (Hm w).
  destruct (m w) as [[a|e] w']; simpl in Hm; subst; [apply Hk | reflexivity].
Qed.

End MonadFacts.

Create HintDb js_pure.
#[global] Hint Resolve pure_ret pure_throw pure_lift : js_pure.

(** ** Identity resolver *)

Section IdentityFacts.

Variable host : Host.

(** [getSteamId] issues the profile request and nothing else. *)
Lemma getSteamId_fetch_rejected w e :
  host_fetch host (trace w) profile_request = Throw e ->
  getSteamId host w = (Throw e, after w (EvFetch profile_request)).
Proof. intros H. unfold getSteamId, bind, fetch. fold profile_request. rewrite H. reflexivity. Qed.

Lemma getSteamId_resolved w r body :
  host_fetch host (trace w) profile_request = Normal r ->
  resp_text r = Normal body ->
  getSteamId host w =
    (Normal (match Regex.string_match Regex.steamID64_re body with
             | Some (_, group1) => JStr group1
             | None => JNull
             end),
     after w (EvFetch profile_request)).
Proof.
  intros H Ht. unfold getSteamId, bind, fetch, lift. fold profile_request.
  rewrite H, Ht. reflexivity.
Qed.

End IdentityFacts.

(** C6.  When the profile document does not contain the steamID64 pattern,
    [getSteamId] resolves with [null]; it does not throw.  The status of
    the response plays no part. *)
Theorem getSteamId_null_without_pattern (host : Host) (w : World) (r : Response) (body : string) :
  host_fetch host (trace w) profile_request = Normal r ->
  resp_text r = Normal body ->
  ~ Regex.contains_steamID64 body ->
  getSteamId host w = (Normal JNull, after w (EvFetch profile_request)).
Proof.
  intros H Ht Hn. rewrite (getSteamId_resolved host w r body H Ht).
  apply RegexFacts.string_match_None in Hn. rewrite Hn. reflexivity.
Qed.

Lemma login_page_has_no_steamID64 :
  ~ Regex.contains_steamID64 "<html><title>Sign In</title></html>".
Proof. apply RegexFacts.string_match_None. vm_compute. reflexivity. Qed.

Lemma getSteamId_null_without_pattern_witness :
  getSteamId Scenario.logged_out initial_world
  = (Normal JNull, after initial_world (EvFetch profile_request)).
Proof.
  apply (getSteamId_null_without_pattern Scenario.logged_out initial_world
           (Scenario.response_200 "<html><title>Sign In</title></html>" Scenario.not_json)
           "<html><title>Sign In</title></html>").
  - reflexivity.
  - reflexivity.
  - exact login_page_has_no_steamID64.
Defined.

(** C7.  A profile request answered with status 500 does not make
    [getSteamId] fail: it resolves with [null]. *)
Theorem getSteamId_http_500_resolves :
  resp_ok (mkResponse false "Internal Server Error"
             (Normal "Internal Server Error") Scenario.not_json) = false
  /\ getSteamId Scenario.profile_500 initial_world
     = (Normal JNull, after initial_world (EvFetch profile_request)).
Proof. split; reflexivity. Qed.

(** ** Objects and traces *)

Section ObjectFacts.

Lemma assoc_set_same k v fields : assoc k (assoc_set k v fields) = Some v.
Proof.
  induction fields as [|[k' v'] fields IH]; simpl.
  - rewrite String.eqb_refl. reflexivity.
  - destruct (String.eqb k k') eqn:E; simpl.
    + rewrite String.eqb_refl. reflexivity.
    + rewrite E. exact IH.
Qed.

Lemma assoc_set_other k k' v fields :
  k <> k' -> assoc k (assoc_set k' v fields) = assoc k fields.
Proof.
  intros Hne. induction fields as [|[k0 v0] fields IH]; simpl.
  - destruct (String.eqb k k') eqn:E; [apply String.eqb_eq in E; contradiction | reflexivity].
  - destruct (String.eqb k' k0) eqn:E0; simpl.
    + apply String.eqb_eq in E0. subst k0.
      destruct (String.eqb k k') eqn:E; [apply String.eqb_eq in E; contradiction | reflexivity].
    + destruct (String.eqb k k0); [reflexivity | exact IH].
Qed.

Lemma get_prop_set_same fields k v :
  get_prop (JObj (assoc_set k v fields)) k = Normal v.
Proof. simpl. rewrite assoc_set_same. reflexivity. Qed.

Lemma get_prop_set_other fields k k' v :
  k <> k' -> get_prop (JObj (assoc_set k' v fields)) k = get_prop (JObj fields) k.
Proof. intros Hne. simpl. rewrite assoc_set_other by assumption. reflexivity. Qed.

(** Only an object can answer a property read with a truthy value, for a
    property that is not [length]. *)
Lemma truthy_prop_is_object v k x :
  k <> "length" ->
  get_prop v k = Normal x -> truthy x = true -> exists fields, v = JObj fields.
Proof.
  intros Hk Hg Ht. destruct v; simpl in Hg; try discriminate;
    try (inversion Hg; subst; discriminate).
  - destruct (String.eqb k "length") eqn:E; [apply String.eqb_eq in E; contradiction|].
    inversion Hg; subst; discriminate.
  - destruct (String.eqb k "length") eqn:E; [apply String.eqb_eq in E; contradiction|].
    inversion Hg; subst; discriminate.
  - eauto.
Qed.

(** [x || []] for a sequence or a missing one. *)
Lemma js_or_sequence x items :
  sequence_or_absent x = Some items -> js_or x (JArr []) = JArr items.
Proof.
  unfold sequence_or_absent, js_or.
  destruct x; simpl; try (intros [= <-]; reflexivity); try discriminate.
  - destruct b; [discriminate | intros [= <-]; reflexivity].
  - destruct (n =? 0)%Z; simpl; [intros [= <-]; reflexivity | discriminate].
  - destruct (String.eqb s ""); simpl; [intros [= <-]; reflexivity | discriminate].
Qed.

End ObjectFacts.

Section TraceFacts.

Lemma requests_after_fetch t req : requests (t ++ [EvFetch req]) = requests t ++ [req].
Proof. unfold requests. rewrite omap_app. reflexivity. Qed.

End TraceFacts.

(** ** Inventory fetcher *)

(** C5.  When page 1 says there are no more items, [fetchInventory] issues
    one request and resolves with the body of page 1 as it was parsed.
    ([more_items = false] is the case [more_items = JBool false]; a missing
    or otherwise falsy [more_items] behaves the same.) *)
Theorem fetchInventory_single_page
    (host : Host) (w : World) (steamId appId contextId : JValue)
    (r : Response) (inventory more_items : JValue) :
  host_fetch host (trace w) (page1_request steamId appId contextId) = Normal r ->
  resp_ok r = true ->
  resp_json r = Normal inventory ->
  get_prop inventory "more_items" = Normal more_items ->
  truthy more_items = false ->
  fetchInventory host steamId appId contextId w
    = (Normal inventory, after w (EvFetch (page1_request steamId appId contextId)))
  /\ requests (trace (snd (fetchInventory host steamId appId contextId w)))
     = requests (trace w) ++ [page1_request steamId appId contextId].
Proof.
  intros Hf Hok Hj Hm Ht.
  assert (E : fetchInventory host steamId appId contextId w
              = (Normal inventory, after w (EvFetch (page1_request steamId appId contextId)))).
  { unfold fetchInventory, bind, fetch, lift.
    fold (inventory_url steamId appId contextId). fold (inventory_headers steamId).
    fold (page1_request steamId appId contextId).
    rewrite Hf, Hok. simpl. rewrite Hj, Hm, Ht. reflexivity. }
  split; [exact E|]. rewrite E. simpl. apply requests_after_fetch.
Qed.

Lemma fetchInventory_single_page_witness :
  truthy (JBool false) = false
  /\ fetchInventory Scenario.single_page Scenario.steamId (JNum 730) (JNum 2) initial_world
     = (Normal Scenario.small_inventory,
        after initial_world
          (EvFetch (page1_request Scenario.steamId (JNum 730) (JNum 2))))
  /\ requests (trace (snd (fetchInventory Scenario.single_page Scenario.steamId
                             (JNum 730) (JNum 2) initial_world)))
     = [page1_request Scenario.steamId (JNum 730) (JNum 2)].
Proof.
  split; [reflexivity|].
  apply (fetchInventory_single_page Scenario.single_page initial_world
           Scenario.steamId (JNum 730) (JNum 2)
           (Scenario.response_200 "{...}" (Normal Scenario.small_inventory))
           Scenario.small_inventory (JBool false)); reflexivity.
Defined.

(** C1.  When page 1 says there are more items, [fetchInventory] issues
    exactly two requests, whatever the second is answered; and when page 2
    arrives, the result is page 1 with [assets] and [descriptions] extended
    by those of page 2 (nothing, where page 2 has none) and with the
    [more_items] and [last_assetid] of page 2. *)
Theorem fetchInventory_two_pages
    (host : Host) (w : World) (steamId appId contextId : JValue)
    (r1 : Response) (inventory more_items cursor : JValue) :
  host_fetch host (trace w) (page1_request steamId appId contextId) = Normal r1 ->
  resp_ok r1 = true ->
  resp_json r1 = Normal inventory ->
  get_prop inventory "more_items" = Normal more_items ->
  truthy more_items = true ->
  get_prop inventory "last_assetid" = Normal cursor ->
  let page1 := page1_request steamId appId contextId in
  let page2 := page2_request steamId appId contextId cursor in
  snd (fetchInventory host steamId appId contextId w)
    = after (after w (EvFetch page1)) (EvFetch page2)
  /\ requests (trace (snd (fetchInventory host steamId appId contextId w)))
     = requests (trace w) ++ [page1; page2]
  /\ forall (r2 : Response) (additionalInventory x2 y2 : JValue)
            (assets1 descriptions1 assets2 descriptions2 : list JValue),
       host_fetch host (trace (after w (EvFetch page1))) page2 = Normal r2 ->
       resp_ok r2 = true ->
       resp_json r2 = Normal additionalInventory ->
       get_prop inventory "assets" = Normal (JArr assets1) ->
       get_prop inventory "descriptions" = Normal (JArr descriptions1) ->
       get_prop additionalInventory "assets" = Normal x2 ->
       sequence_or_absent x2 = Some assets2 ->
       get_prop additionalInventory "descriptions" = Normal y2 ->
       sequence_or_absent y2 = Some descriptions2 ->
       exists merged,
         fst (fetchInventory host steamId appId contextId w) = Normal merged
         /\ get_prop merged "assets" = Normal (JArr (assets1 ++ assets2))
         /\ get_prop merged "descriptions" = Normal (JArr (descriptions1 ++ descriptions2))
         /\ length (assets1 ++ assets2) = length assets1 + length assets2
         /\ length (descriptions1 ++ descriptions2)
            = length descriptions1 + length descriptions2
         /\ get_prop merged "more_items" = get_prop additionalInventory "more_items"
         /\ get_prop merged "last_assetid" = get_prop additionalInventory "last_assetid"
         /\ forall k, k <> "assets" -> k <> "descriptions" ->
                      k <> "more_items" -> k <> "last_assetid" ->
                      get_prop merged k = get_prop inventory k.
Proof.
  intros Hf Hok Hj Hm Ht Hc page1 page2.
  subst page1 page2.
  set (page1 := page1_request steamId appId contextId) in *.
  set (page2 := page2_request steamId appId contextId cursor) in *.
  destruct (truthy_prop_is_object inventory "more_items" more_items) as [fields ->];
    [discriminate | assumption | assumption |].
  set (w1 := after w (EvFetch page1)).
  set (tail := fun response : Response =>
     (if negb (resp_ok response)
      then throw (Error ("Failed to fetch additional inventory: " +:+ resp_statusText response))
      else ret tt) ;;
     additionalInventory <- lift (resp_json response) ;;
     assets1 <- lift (get_prop (JObj fields) "assets") ;;
     concat1 <- lift (get_concat assets1) ;;
     assets2 <- lift (get_prop additionalInventory "assets") ;;
     assets <- lift (concat1 (js_or assets2 (JArr []))) ;;
     inventory <- lift (set_prop (JObj fields) "assets" assets) ;;
     descriptions1 <- lift (get_prop inventory "descriptions") ;;
     concat2 <- lift (get_concat descriptions1) ;;
     descriptions2 <- lift (get_prop additionalInventory "descriptions") ;;
     descriptions <- lift (concat2 (js_or descriptions2 (JArr []))) ;;
     inventory <- lift (set_prop inventory "descriptions" descriptions) ;;
     last_assetid <- lift (get_prop additionalInventory "last_assetid") ;;
     inventory <- lift (set_prop inventory "last_assetid" last_assetid) ;;
     more_items <- lift (get_prop additionalInventory "more_items") ;;
     inventory <- lift (set_prop inventory "more_items" more_items) ;;
     ret inventory).
  assert (E : fetchInventory host steamId appId contextId w
              = bind (fetch host page2) tail w1).
  { unfold fetchInventory.
    fold (inventory_url steamId appId contextId). fold (inventory_headers steamId).
    fold (page1_request steamId appId contextId). fold page1.
    unfold bind at 1. unfold fetch at 1. rewrite Hf. fold w1.
    unfold bind at 1. rewrite Hok. simpl negb. cbv iota. unfold ret at 1.
    unfold bind at 1. unfold lift at 1. rewrite Hj.
    unfold bind at 1. unfold lift at 1. rewrite Hm. rewrite Ht.
    unfold bind at 1. unfold lift at 1. rewrite Hc.
    reflexivity. }
  assert (Hpure : forall response, pure (tail response)).
  { intros response. unfold tail.
    repeat (apply pure_bind; [|intros]); auto with js_pure.
    destruct (negb (resp_ok response)); auto with js_pure. }
  assert (Hw : snd (fetchInventory host steamId appId contextId w)
               = after w1 (EvFetch page2)).
  { rewrite E. unfold bind at 1, fetch.
    destruct (host_fetch host (trace w1) page2) as [r2|e]; [apply Hpure | reflexivity]. }
  split; [exact Hw|]. split.
  { rewrite Hw. simpl. rewrite <- app_assoc. simpl.
    change (trace w ++ [EvFetch page1; EvFetch page2])
      with (trace w ++ [EvFetch page1] ++ [EvFetch page2]).
    rewrite app_assoc, !requests_after_fetch, <- app_assoc. reflexivity. }
  intros r2 additional x2 y2 assets1 descriptions1 assets2 descriptions2
         Hf2 Hok2 Hj2 Ha1 Hd1 Hx2 Hsx Hy2 Hsy.
  assert (Hobj2 : exists c1 c2, get_prop additional "more_items" = Normal c1
                                /\ get_prop additional "last_assetid" = Normal c2).
  { destruct additional; simpl in Hx2; try discriminate; simpl; eauto. }
  destruct Hobj2 as (m2 & l2 & Hm2 & Hl2).
  eexists. split.
  { rewrite E. unfold bind at 1, fetch. fold w1 in Hf2. rewrite Hf2.
    unfold tail. unfold bind at 1. rewrite Hok2. simpl negb. cbv iota. unfold ret at 1.
    unfold bind, lift. rewrite Hj2, Ha1. simpl get_concat. cbv iota beta.
    rewrite Hx2. rewrite (js_or_sequence _ _ Hsx). cbv iota beta. simpl set_prop. cbv iota beta.
    rewrite get_prop_set_other by discriminate. rewrite Hd1. simpl get_concat. cbv iota beta.
    rewrite Hy2. rewrite (js_or_sequence _ _ Hsy). cbv iota beta. simpl set_prop. cbv iota beta.
    rewrite Hl2. simpl set_prop. cbv iota beta. rewrite Hm2. simpl set_prop. cbv iota beta.
    reflexivity. }
  rewrite Hm2, Hl2.
  repeat split.
  - rewrite !get_prop_set_other by discriminate. apply get_prop_set_same.
  - rewrite !get_prop_set_other by discriminate. apply get_prop_set_same.
  - apply length_app.
  - apply length_app.
  - apply get_prop_set_same.
  - rewrite !get_prop_set_other by discriminate. apply get_prop_set_same.
  - intros k Hk1 Hk2 Hk3 Hk4. rewrite !get_prop_set_other by assumption. reflexivity.
Qed.

Lemma fetchInventory_two_pages_witness :
  requests (trace (snd (fetchInventory Scenario.two_pages Scenario.steamId
                          (JNum 730) (JNum 2) initial_world)))
  = [page1_request Scenario.steamId (JNum 730) (JNum 2);
     page2_request Scenario.steamId (JNum 730) (JNum 2) (JStr "1002")]
  /\ exists merged,
       fst (fetchInventory Scenario.two_pages Scenario.steamId
              (JNum 730) (JNum 2) initial_world) = Normal merged
       /\ get_prop merged "assets"
          = Normal (JArr [Scenario.asset "1001"; Scenario.asset "1002"; Scenario.asset "1003"])
       /\ get_prop merged "descriptions" = Normal (JArr [Scenario.description "c1"])
       /\ get_prop merged "more_items" = Normal JUndefined
       /\ get_prop merged "last_assetid" = Normal JUndefined.
Proof.
  destruct (fetchInventory_two_pages Scenario.two_pages initial_world
              Scenario.steamId (JNum 730) (JNum 2)
              (Scenario.response_200 "{...}" (Normal Scenario.first_page))
              Scenario.first_page (JBool true) (JStr "1002")
              eq_refl eq_refl eq_refl eq_refl eq_refl eq_refl) as (_ & Hreq & Hmerge).
  split; [exact Hreq|].
  destruct (Hmerge (Scenario.response_200 "{...}" (Normal Scenario.second_page))
              Scenario.second_page (JArr [Scenario.asset "1003"]) JUndefined
              [Scenario.asset "1001"; Scenario.asset "1002"] [Scenario.description "c1"]
              [Scenario.asset "1003"] []
              eq_refl eq_refl eq_refl eq_refl eq_refl eq_refl eq_refl eq_refl eq_refl)
    as (merged & Hm & Ha & Hd & _ & _ & Hmore & Hlast & _).
  exists merged. repeat split; assumption.
Defined.

(** ** Readiness handshake *)

Section HandshakeFacts.

Variable host : Host.
Variable tabId : Z.

Lemma probe_cases (c : Completion JValue) :
  (exists res, c = Normal res /\ is_undefined res = false) \/ probe_fails c.
Proof.
  destruct c as [res|e]; [|right; exact I].
  destruct res; simpl; eauto.
Qed.

(** A defined response: ready, and nothing is injected. *)
Lemma ensureContentScript_ready attempt w res :
  host_sendMessage host (trace w) tabId probe_message = Normal res ->
  is_undefined res = false ->
  ensureContentScript host tabId attempt w
    = (Normal true, after w (EvSendMessage tabId probe_message)).
Proof.
  intros Hp Hd. rewrite ensureContentScript_equation_1.
  unfold try_catch, bind, tabs_sendMessage. fold probe_message.
  rewrite Hp, Hd. reflexivity.
Qed.

(** A failed probe: the [catch] block runs in the world after the probe. *)
Lemma ensureContentScript_absent attempt w :
  probe_fails (host_sendMessage host (trace w) tabId probe_message) ->
  ensureContentScript host tabId attempt w
    = bind (scripting_executeScript host tabId content_script_files)
           (fun _ => match decide (attempt = 0) with
                     | left _ => fun w' => ensureContentScript host tabId 1 w'
                     | right _ => throw (injection_error tabId)
                     end)
           (after w (EvSendMessage tabId probe_message)).
Proof.
  intros Hp. rewrite ensureContentScript_equation_1.
  unfold try_catch, bind at 1, tabs_sendMessage. fold probe_message.
  destruct (host_sendMessage host (trace w) tabId probe_message) as [res|e].
  - simpl in Hp. subst res. reflexivity.
  - reflexivity.
Qed.

(** ... where an injection that is refused ends the handshake with the
    host's error, *)
Lemma ensureContentScript_injection_refused attempt w e :
  probe_fails (host_sendMessage host (trace w) tabId probe_message) ->
  host_executeScript host (trace (after w (EvSendMessage tabId probe_message)))
    tabId content_script_files = Throw e ->
  ensureContentScript host tabId attempt w
    = (Throw e, after (after w (EvSendMessage tabId probe_message))
                      (EvExecuteScript tabId content_script_files)).
Proof.
  intros Hp He. rewrite ensureContentScript_absent by assumption.
  unfold bind, scripting_executeScript. rewrite He. reflexivity.
Qed.

(** an injection made on the first attempt is followed by the second
    attempt, *)
Lemma ensureContentScript_retry w :
  probe_fails (host_sendMessage host (trace w) tabId probe_message) ->
  host_executeScript host (trace (after w (EvSendMessage tabId probe_message)))
    tabId content_script_files = Normal tt ->
  ensureContentScript host tabId 0 w
    = ensureContentScript host tabId 1
        (after (after w (EvSendMessage tabId probe_message))
               (EvExecuteScript tabId content_script_files)).
Proof.
  intros Hp He. rewrite ensureContentScript_absent by assumption.
  unfold bind, scripting_executeScript. rewrite He. reflexivity.
Qed.

(** and an injection made on a later attempt is followed by the failure. *)
Lemma ensureContentScript_give_up attempt w :
  attempt <> 0 ->
  probe_fails (host_sendMessage host (trace w) tabId probe_message) ->
  host_executeScript host (trace (after w (EvSendMessage tabId probe_message)))
    tabId content_script_files = Normal tt ->
  ensureContentScript host tabId attempt w
    = (Throw (injection_error tabId),
       after (after w (EvSendMessage tabId probe_message))
             (EvExecuteScript tabId content_script_files)).
Proof.
  intros Ha Hp He. rewrite ensureContentScript_absent by assumption.
  unfold bind, scripting_executeScript. rewrite He.
  destruct (decide (attempt = 0)); [contradiction | reflexivity].
Qed.

Lemma injections_after_probe t message :
  injections (t ++ [EvSendMessage tabId message]) = injections t.
Proof. unfold injections. rewrite omap_app. simpl. apply app_nil_r. Qed.

Lemma injections_after_injection t files :
  injections (t ++ [EvExecuteScript tabId files]) = injections t ++ [(tabId, files)].
Proof. unfold injections. rewrite omap_app. reflexivity. Qed.

(** The second attempt injects at most once. *)
Lemma ensureContentScript_last_attempt_bound attempt w :
  attempt <> 0 ->
  length (injections (trace (snd (ensureContentScript host tabId attempt w))))
  <= length (injections (trace w)) + 1.
Proof.
  intros Ha.
  destruct (probe_cases (host_sendMessage host (trace w) tabId probe_message))
    as [(res & Hp & Hd)|Hp].
  - rewrite (ensureContentScript_ready _ _ _ Hp Hd). simpl.
    rewrite injections_after_probe. lia.
  - destruct (host_executeScript host (trace (after w (EvSendMessage tabId probe_message)))
                tabId content_script_files) as [[]|e] eqn:He.
    + rewrite (ensureContentScript_give_up _ _ Ha Hp He). simpl.
      rewrite injections_after_injection, injections_after_probe, length_app. simpl. lia.
    + rewrite (ensureContentScript_injection_refused _ _ _ Hp He). simpl.
      rewrite injections_after_injection, injections_after_probe, length_app. simpl. lia.
Qed.

(** The whole handshake injects at most twice. *)
Lemma ensureContentScript_bound w :
  length (injections (trace (snd (ensureContentScript host tabId 0 w))))
  <= length (injections (trace w)) + 2.
Proof.
  destruct (probe_cases (host_sendMessage host (trace w) tabId probe_message))
    as [(res & Hp & Hd)|Hp].
  - rewrite (ensureContentScript_ready _ _ _ Hp Hd). simpl.
    rewrite injections_after_probe. lia.
  - destruct (host_executeScript host (trace (after w (EvSendMessage tabId probe_message)))
                tabId content_script_files) as [[]|e] eqn:He.
    + rewrite (ensureContentScript_retry _ Hp He).
      etransitivity; [apply ensureContentScript_last_attempt_bound; discriminate|].
      simpl. rewrite injections_after_injection, injections_after_probe, length_app. simpl. lia.
    + rewrite (ensureContentScript_injection_refused _ _ _ Hp He). simpl.
      rewrite injections_after_injection, injections_after_probe, length_app. simpl. lia.
Qed.

End HandshakeFacts.

Section GrowthFacts.

Lemma ensureContentScript_grows host tabId attempt :
  attempt <> 0 -> grows (ensureContentScript host tabId attempt).
Proof.
  intros Ha w.
  destruct (probe_cases (host_sendMessage host (trace w) tabId probe_message))
    as [(res & Hp & Hd)|Hp].
  - rewrite (ensureContentScript_ready _ _ _ _ _ Hp Hd). simpl. eauto.
  - destruct (host_executeScript host (trace (after w (EvSendMessage tabId probe_message)))
                tabId content_script_files) as [[]|e] eqn:He.
    + rewrite (ensureContentScript_give_up _ _ _ _ Ha Hp He). simpl.
      rewrite <- app_assoc. eauto.
    + rewrite (ensureContentScript_injection_refused _ _ _ _ _ Hp He). simpl.
      rewrite <- app_assoc. eauto.
Qed.

End GrowthFacts.

(** C9.  A probe answered with anything but [undefined] makes the handshake
    report ready with no injection; a probe answered with [undefined] is
    followed by an injection, as if it had thrown. *)
Theorem ensureContentScript_probe_response
    (host : Host) (tabId : Z) (w : World) (res : JValue) :
  host_sendMessage host (trace w) tabId probe_message = Normal res ->
  (res <> JUndefined ->
     ensureContentScript host tabId 0 w
       = (Normal true, after w (EvSendMessage tabId probe_message))
     /\ injections (trace (snd (ensureContentScript host tabId 0 w)))
        = injections (trace w))
  /\ (res = JUndefined ->
        exists rest,
          trace (snd (ensureContentScript host tabId 0 w))
          = trace w ++ [EvSendMessage tabId probe_message;
                        EvExecuteScript tabId content_script_files] ++ rest).
Proof.
  intros Hp. split.
  - intros Hd.
    assert (Hu : is_undefined res = false) by (destruct res; simpl; congruence).
    rewrite (ensureContentScript_ready host tabId 0 w res Hp Hu).
    split; [reflexivity|]. simpl. apply injections_after_probe.
  - intros ->.
    assert (Hf : probe_fails (host_sendMessage host (trace w) tabId probe_message))
      by (rewrite Hp; reflexivity).
    destruct (host_executeScript host (trace (after w (EvSendMessage tabId probe_message)))
                tabId content_script_files) as [[]|e] eqn:He.
    + rewrite (ensureContentScript_retry host tabId w Hf He).
      set (w2 := after (after w (EvSendMessage tabId probe_message))
                       (EvExecuteScript tabId content_script_files)).
      destruct (ensureContentScript_grows host tabId 1 ltac:(discriminate) w2) as [t Ht].
      exists t. rewrite Ht. unfold w2. simpl. rewrite <- !app_assoc. reflexivity.
    + rewrite (ensureContentScript_injection_refused host tabId 0 w e Hf He).
      exists []. simpl. rewrite <- !app_assoc. reflexivity.
Qed.

Lemma ensureContentScript_probe_response_witness :
  (ensureContentScript Scenario.script_present 7 0 initial_world
     = (Normal true, after initial_world (EvSendMessage 7 probe_message))
   /\ injections (trace (snd (ensureContentScript Scenario.script_present 7 0 initial_world)))
      = [])
  /\ exists rest,
       trace (snd (ensureContentScript Scenario.silent_probe 7 0 initial_world))
       = [EvSendMessage 7 probe_message; EvExecuteScript 7 content_script_files] ++ rest.
Proof.
  split.
  - apply (ensureContentScript_probe_response Scenario.script_present 7 initial_world (JObj []));
      [reflexivity | discriminate].
  - apply (ensureContentScript_probe_response Scenario.silent_probe 7 initial_world JUndefined);
      reflexivity.
Defined.

(** C2, as stated, fails on a tab where the injection itself is refused:
    one injection is attempted and the handshake fails with the host's
    error. *)
Lemma ensureContentScript_refused_injection_counterexample :
  probe_always_fails Scenario.restricted_page 7
  /\ injections (trace (snd (ensureContentScript Scenario.restricted_page 7 0 initial_world)))
     = [(7%Z, content_script_files)]
  /\ fst (ensureContentScript Scenario.restricted_page 7 0 initial_world)
     = Throw (Error "Cannot access contents of the page")
  /\ ~ (forall (host : Host) (tabId : Z) (w : World),
          probe_always_fails host tabId ->
          length (injections (trace (snd (ensureContentScript host tabId 0 w))))
            = length (injections (trace w)) + 2
          /\ fst (ensureContentScript host tabId 0 w) = Throw (injection_error tabId)).
Proof.
  assert (Hp : probe_always_fails Scenario.restricted_page 7) by (intros t m; exact I).
  assert (E : ensureContentScript Scenario.restricted_page 7 0 initial_world
              = (Throw (Error "Cannot access contents of the page"),
                 after (after initial_world (EvSendMessage 7 probe_message))
                       (EvExecuteScript 7 content_script_files))).
  { apply ensureContentScript_injection_refused; [apply Hp | reflexivity]. }
  split; [exact Hp|]. rewrite E. repeat split.
  intros H. destruct (H Scenario.restricted_page 7%Z initial_world Hp) as [Hn _].
  rewrite E in Hn. simpl in Hn. discriminate.
Qed.

(** C2, amended.  The handshake never injects more than twice.  On a tab
    whose probe always fails and whose injections are carried out, it
    injects exactly twice and then fails with the error naming the tab. *)
Theorem ensureContentScript_bounded_retry (host : Host) (tabId : Z) (w : World) :
  probe_always_fails host tabId ->
  (forall t files, host_executeScript host t tabId files = Normal tt) ->
  ensureContentScript host tabId 0 w
    = (Throw (injection_error tabId),
       mkWorld (registered w)
               (trace w ++ [EvSendMessage tabId probe_message;
                            EvExecuteScript tabId content_script_files;
                            EvSendMessage tabId probe_message;
                            EvExecuteScript tabId content_script_files]))
  /\ injections (trace (snd (ensureContentScript host tabId 0 w)))
     = injections (trace w) ++ [(tabId, content_script_files); (tabId, content_script_files)]
  /\ forall (host' : Host) (w' : World),
       length (injections (trace (snd (ensureContentScript host' tabId 0 w'))))
       <= length (injections (trace w')) + 2.
Proof.
  intros Hp He.
  assert (E : ensureContentScript host tabId 0 w
    = (Throw (injection_error tabId),
       mkWorld (registered w)
               (trace w ++ [EvSendMessage tabId probe_message;
                            EvExecuteScript tabId content_script_files;
                            EvSendMessage tabId probe_message;
                            EvExecuteScript tabId content_script_files]))).
  { rewrite ensureContentScript_retry by (apply Hp || apply He).
    rewrite ensureContentScript_give_up by (discriminate || apply Hp || apply He).
    unfold after. simpl. rewrite <- !app_assoc. reflexivity. }
  split; [exact E|]. split.
  - rewrite E. simpl.
    change [EvSendMessage tabId probe_message; EvExecuteScript tabId content_script_files;
            EvSendMessage tabId probe_message; EvExecuteScript tabId content_script_files]
      with ([EvSendMessage tabId probe_message] ++ [EvExecuteScript tabId content_script_files]
            ++ [EvSendMessage tabId probe_message] ++ [EvExecuteScript tabId content_script_files]).
    rewrite !app_assoc.
    rewrite injections_after_injection, injections_after_probe,
            injections_after_injection, injections_after_probe.
    rewrite <- app_assoc. reflexivity.
  - intros host' w'. apply ensureContentScript_bound.
Qed.

Lemma ensureContentScript_bounded_retry_witness :
  probe_always_fails Scenario.no_receiver 7
  /\ fst (ensureContentScript Scenario.no_receiver 7 0 initial_world)
     = Throw (Error "Failed to inject content script into tab 7")
  /\ injections (trace (snd (ensureContentScript Scenario.no_receiver 7 0 initial_world)))
     = [(7%Z, content_script_files); (7%Z, content_script_files)].
Proof.
  assert (Hp : probe_always_fails Scenario.no_receiver 7) by (intros t m; exact I).
  destruct (ensureContentScript_bounded_retry Scenario.no_receiver 7 initial_world Hp
              (fun _ _ => eq_refl)) as (E & Hi & _).
  split; [exact Hp|]. split; [rewrite E; reflexivity | exact Hi].
Defined.

(** ** Permission synchronisation *)

Section PermissionFacts.

Variable host : Host.

(** The loop of [onRemoved] keeps, in order, the origins that are not
    removed. *)
Lemma remaining_origins_filter (removedOrigins matches acc : list string) :
  foldl (fun newOrigins origin =>
           if bool_decide (origin ∈ removedOrigins) then newOrigins
           else newOrigins ++ [origin]) acc matches
  = acc ++ filter (fun origin => origin ∉ removedOrigins) matches.
Proof.
  revert acc. induction matches as [|o matches IH]; intros acc; simpl.
  - rewrite app_nil_r. reflexivity.
  - rewrite IH. rewrite filter_cons. destruct (decide (o ∈ removedOrigins)) as [Hin|Hout].
    + rewrite bool_decide_true by assumption.
      destruct (decide (o ∉ removedOrigins)); [contradiction | reflexivity].
    + rewrite bool_decide_false by assumption.
      destruct (decide (o ∉ removedOrigins)); [|contradiction].
      rewrite <- app_assoc. reflexivity.
Qed.

Lemma remaining_origins_nil (removedOrigins matches : list string) :
  (forall o, o ∈ matches -> o ∈ removedOrigins) ->
  foldl (fun newOrigins origin =>
           if bool_decide (origin ∈ removedOrigins) then newOrigins
           else newOrigins ++ [origin]) [] matches = [].
Proof.
  intros H. rewrite remaining_origins_filter. simpl.
  induction matches as [|o matches IH]; [reflexivity|].
  rewrite filter_cons. destruct (decide (o ∉ removedOrigins)) as [Hout|_].
  - exfalso. apply Hout, H. left.
  - apply IH. intros o' Ho'. apply H. right. assumption.
Qed.

Lemma getRegistered_content_script w :
  scripting_getRegisteredContentScripts ["content-script"] w
  = (Normal (match registered w !! "content-script" with
             | Some s => [s]
             | None => []
             end),
     after w (EvGetRegistered ["content-script"])).
Proof.
  unfold scripting_getRegisteredContentScripts. simpl.
  destruct (registered w !! "content-script"); reflexivity.
Qed.

(** What [onRemoved] does to a registered script, by what is left of its
    match patterns. *)
Lemma permissions_onRemoved_registered w s removedOrigins :
  removedOrigins <> [] ->
  registered w !! "content-script" = Some s ->
  let newOrigins := filter (fun origin => origin ∉ removedOrigins) (cs_matches s) in
  let w1 := after (after w (EvConsole "debug" "Removed permission for"
                              [js_strings removedOrigins]))
                  (EvGetRegistered ["content-script"]) in
  permissions_onRemoved host removedOrigins w
  = bind (if negb (length newOrigins =? 0)
          then scripting_updateContentScripts host [content_script newOrigins]
          else scripting_unregisterContentScripts ["content-script"])
         (fun _ => console "debug" "Updated content script following origin permission change"
                     [js_strings newOrigins])
         w1.
Proof.
  intros Hne Hs newOrigins w1. unfold permissions_onRemoved.
  destruct removedOrigins as [|o os]; [contradiction|].
  change (length (o :: os) =? 0) with false. cbv iota.
  unfold bind at 1, console at 1, log at 1. cbv beta iota.
  unfold bind at 1. rewrite getRegistered_content_script. cbn [registered trace after].
  rewrite Hs. cbn [head]. rewrite remaining_origins_filter. reflexivity.
Qed.

End PermissionFacts.

Section SyncFacts.

Variable host : Host.

Lemma unregister_registered w s :
  registered w !! "content-script" = Some s ->
  scripting_unregisterContentScripts ["content-script"] w
  = (Normal tt, mkWorld (delete "content-script" (registered w))
                        (trace w ++ [EvUnregister ["content-script"]])).
Proof.
  intros Hs. unfold scripting_unregisterContentScripts.
  rewrite bool_decide_true; [reflexivity|].
  constructor; [rewrite Hs; eauto | constructor].
Qed.

Lemma register_fresh w matches :
  matches <> [] ->
  registered w !! "content-script" = None ->
  scripting_registerContentScripts host [content_script matches] w
  = (Normal tt, mkWorld (<["content-script" := content_script matches]> (registered w))
                        (trace w ++ [EvRegister [content_script matches]])).
Proof.
  intros Hm Hs. unfold scripting_registerContentScripts, refused_matches. simpl existsb.
  rewrite (bool_decide_false (matches = [])) by assumption.
  rewrite andb_false_r. simpl.
  rewrite bool_decide_true; [reflexivity|].
  constructor; [exact Hs | constructor].
Qed.

(** [onRemoved] updates the registration only to a non-empty match set. *)
Lemma permissions_onRemoved_updates w removedOrigins :
  updates (trace (snd (permissions_onRemoved host removedOrigins w))) = updates (trace w)
  \/ exists matches,
       matches <> []
       /\ updates (trace (snd (permissions_onRemoved host removedOrigins w)))
          = updates (trace w) ++ [[content_script matches]].
Proof.
  destruct removedOrigins as [|o os]; [left; reflexivity|].
  destruct (registered w !! "content-script") as [s|] eqn:Hs.
  - rewrite (permissions_onRemoved_registered host w s (o :: os)) by (discriminate || assumption).
    cbv zeta.
    set (newOrigins := filter (fun origin => origin ∉ o :: os) (cs_matches s)).
    destruct (length newOrigins =? 0) eqn:Hl; simpl negb; cbv iota.
    + left. unfold bind, scripting_unregisterContentScripts, console, log.
      repeat match goal with
             | |- context [if ?b then _ else _] => destruct b
             end; simpl; unfold updates; rewrite ?omap_app; simpl;
        rewrite ?app_nil_r; reflexivity.
    + right. exists newOrigins. split.
      { intros E. rewrite E in Hl. discriminate. }
      unfold bind, scripting_updateContentScripts, console, log.
      repeat match goal with
             | |- context [if ?b then _ else _] => destruct b
             end; simpl; unfold updates; rewrite ?omap_app; simpl;
        rewrite ?app_nil_r; rewrite <- ?app_assoc; reflexivity.
  - left. unfold permissions_onRemoved.
    change (length (o :: os) =? 0) with false. cbv iota.
    unfold bind at 1, console at 1, log at 1. cbv beta iota.
    unfold bind at 1. rewrite getRegistered_content_script. cbn [registered trace after].
    rewrite Hs. simpl. unfold updates. rewrite !omap_app. simpl. rewrite !app_nil_r.
    reflexivity.
Qed.

End SyncFacts.

Section RevocationFacts.

Variable host : Host.

(** A revocation that covers every match pattern of the registered script:
    the outcome, the registry and the trace afterwards. *)
Lemma permissions_onRemoved_unregisters w s removedOrigins :
  removedOrigins <> [] ->
  registered w !! "content-script" = Some s ->
  (forall origin, origin ∈ cs_matches s -> origin ∈ removedOrigins) ->
  permissions_onRemoved host removedOrigins w
  = (Normal tt,
     mkWorld (delete "content-script" (registered w))
       (trace w ++ [EvConsole "debug" "Removed permission for" [js_strings removedOrigins];
                    EvGetRegistered ["content-script"];
                    EvUnregister ["content-script"];
                    EvConsole "debug"
                      "Updated content script following origin permission change"
                      [js_strings []]])).
Proof.
  intros Hne Hs Hall.
  pose proof (permissions_onRemoved_registered host w s removedOrigins Hne Hs) as E.
  cbv zeta in E.
  assert (Hnil : filter (fun origin => origin ∉ removedOrigins) (cs_matches s) = []).
  { pose proof (remaining_origins_nil removedOrigins (cs_matches s) Hall) as H.
    rewrite remaining_origins_filter in H. exact H. }
  rewrite Hnil in E. simpl in E. unfold bind in E.
  rewrite (unregister_registered _ s) in E by exact Hs.
  rewrite E. unfold console, log. simpl. rewrite <- !app_assoc. reflexivity.
Qed.

End RevocationFacts.

(** C3.  When a revocation leaves no match pattern to the registered
    companion script, the script is unregistered and no update is issued;
    and no revocation ever updates the registration to an empty match set. *)
Theorem permissions_onRemoved_last_origin
    (host : Host) (w : World) (s : ContentScript) (removedOrigins : list string) :
  removedOrigins <> [] ->
  registered w !! "content-script" = Some s ->
  (forall origin, origin ∈ cs_matches s -> origin ∈ removedOrigins) ->
  fst (permissions_onRemoved host removedOrigins w) = Normal tt
  /\ registered (snd (permissions_onRemoved host removedOrigins w))
     = delete "content-script" (registered w)
  /\ registered (snd (permissions_onRemoved host removedOrigins w)) !! "content-script" = None
  /\ unregistrations (trace (snd (permissions_onRemoved host removedOrigins w)))
     = unregistrations (trace w) ++ [["content-script"]]
  /\ updates (trace (snd (permissions_onRemoved host removedOrigins w))) = updates (trace w)
  /\ forall (host' : Host) (w' : World) (origins' : list string),
       updates (trace (snd (permissions_onRemoved host' origins' w'))) = updates (trace w')
       \/ exists matches,
            matches <> []
            /\ updates (trace (snd (permissions_onRemoved host' origins' w')))
               = updates (trace w') ++ [[content_script matches]].
Proof.
  intros Hne Hs Hall.
  rewrite (permissions_onRemoved_unregisters host w s removedOrigins Hne Hs Hall).
  cbn [fst snd registered trace]. repeat split.
  - apply lookup_delete_eq.
  - unfold unregistrations. rewrite omap_app. reflexivity.
  - unfold updates. rewrite omap_app. simpl. apply app_nil_r.
  - intros host' w' origins'. apply permissions_onRemoved_updates.
Qed.

Lemma permissions_onRemoved_last_origin_witness :
  registered (Scenario.registered_for ["https://a.com/*"]) !! "content-script"
    = Some (content_script ["https://a.com/*"])
  /\ fst (permissions_onRemoved Scenario.script_present ["https://a.com/*"]
            (Scenario.registered_for ["https://a.com/*"])) = Normal tt
  /\ registered (snd (permissions_onRemoved Scenario.script_present ["https://a.com/*"]
                        (Scenario.registered_for ["https://a.com/*"])))
       !! "content-script" = None
  /\ unregistrations (trace (snd (permissions_onRemoved Scenario.script_present
                                    ["https://a.com/*"]
                                    (Scenario.registered_for ["https://a.com/*"]))))
     = [["content-script"]]
  /\ updates (trace (snd (permissions_onRemoved Scenario.script_present
                            ["https://a.com/*"]
                            (Scenario.registered_for ["https://a.com/*"])))) = [].
Proof.
  assert (Hs : registered (Scenario.registered_for ["https://a.com/*"]) !! "content-script"
               = Some (content_script ["https://a.com/*"])) by reflexivity.
  destruct (permissions_onRemoved_last_origin Scenario.script_present
              (Scenario.registered_for ["https://a.com/*"])
              (content_script ["https://a.com/*"]) ["https://a.com/*"])
    as (H1 & _ & H3 & H4 & H5 & _).
  - discriminate.
  - exact Hs.
  - intros origin Ho. exact Ho.
  - repeat split; assumption.
Defined.

(** C8.  From an absent registration, granting an origin and then revoking
    it leaves the registration absent (and the registry as it was). *)
Theorem grant_then_revoke_absent (host : Host) (w : World) (o : string) :
  registered w !! "content-script" = None ->
  let w1 := snd (permissions_onAdded host [o] w) in
  let w2 := snd (permissions_onRemoved host [o] w1) in
  fst (permissions_onAdded host [o] w) = Normal tt
  /\ registered w1 !! "content-script" = Some (content_script [o])
  /\ fst (permissions_onRemoved host [o] w1) = Normal tt
  /\ registered w2 !! "content-script" = None
  /\ registered w2 = registered w.
Proof.
  intros Hs.
  assert (E1 : permissions_onAdded host [o] w
    = (Normal tt,
       mkWorld (<["content-script" := content_script [o]]> (registered w))
         (trace w ++ [EvConsole "debug" "Permission added for" [js_strings [o]];
                      EvGetRegistered ["content-script"];
                      EvRegister [content_script [o]];
                      EvConsole "debug"
                        "Updated content script following origin permission change"
                        [js_strings [o]]]))).
  { unfold permissions_onAdded. change (length [o] =? 0) with false. cbv iota.
    unfold bind at 1, console at 1, log at 1. cbv beta iota.
    unfold bind at 1. rewrite getRegistered_content_script. cbn [registered trace after].
    rewrite Hs. cbn [head app].
    assert (Hset : Set_spread [o] = [o]).
    { reflexivity. }
    rewrite Hset. unfold bind. rewrite register_fresh by (discriminate || exact Hs).
    unfold console, log. simpl. rewrite <- !app_assoc. reflexivity. }
  intros w1 w2. subst w1 w2. rewrite E1. cbn [fst snd].
  set (w1 := mkWorld _ _).
  assert (Hs1 : registered w1 !! "content-script" = Some (content_script [o])).
  { unfold w1. simpl. apply lookup_insert_eq. }
  rewrite (permissions_onRemoved_unregisters host w1 (content_script [o]) [o]);
    [| discriminate | exact Hs1 | intros origin Ho; exact Ho].
  cbn [fst snd registered]. repeat split.
  - exact Hs1.
  - apply lookup_delete_eq.
  - unfold w1. simpl. apply delete_insert_id. exact Hs.
Qed.

Lemma grant_then_revoke_absent_witness :
  registered initial_world !! "content-script" = None
  /\ registered (snd (permissions_onAdded Scenario.script_present ["https://a.com/*"]
                        initial_world)) !! "content-script"
     = Some (content_script ["https://a.com/*"])
  /\ registered (snd (permissions_onRemoved Scenario.script_present ["https://a.com/*"]
                        (snd (permissions_onAdded Scenario.script_present ["https://a.com/*"]
                                initial_world)))) !! "content-script" = None.
Proof.
  assert (Hs : registered initial_world !! "content-script" = None) by reflexivity.
  destruct (grant_then_revoke_absent Scenario.script_present initial_world
              "https://a.com/*" Hs) as (_ & H2 & _ & H4 & _).
  repeat split; assumption.
Defined.

(** ** Identity and inventory together *)

Section FetchOnlyFacts.

Variable host : Host.

Lemma pure_only_fetches {A} (m : M A) : pure m -> only_fetches m.
Proof.
  intros H w. pose proof (H w) as Hw. rewrite Hw.
  split; [reflexivity|]. exists []. simpl. rewrite app_nil_r. reflexivity.
Qed.

Lemma only_fetches_bind {A B} (m : M A) (k : A -> M B) :
  only_fetches m -> (forall a, only_fetches (k a)) -> only_fetches (bind m k).
Proof.
  intros Hm Hk w. unfold bind. destruct (Hm w) as [Hr [t Ht]].
  destruct (m w) as [[a|e] w1]; simpl in Ht, Hr.
  - destruct (Hk a w1) as [Hr' [t' Ht']]. split; [congruence|].
    exists (t ++ t'). rewrite Ht', Ht, map_app, app_assoc. reflexivity.
  - split; [exact Hr|]. exists t. exact Ht.
Qed.

Lemma only_fetches_fetch req : only_fetches (fetch host req).
Proof. intros w. split; [reflexivity|]. exists [req]. reflexivity. Qed.

Ltac only_fetches_tac :=
  repeat first
    [ apply only_fetches_fetch
    | apply pure_only_fetches; solve [auto with js_pure]
    | apply only_fetches_bind; [|intros]
    | match goal with
      | |- only_fetches (if ?b then _ else _) => destruct b
      | |- only_fetches (match ?c with _ => _ end) => destruct c
      end ].

Lemma getSteamId_only_fetches : only_fetches (getSteamId host).
Proof. unfold getSteamId. only_fetches_tac. Qed.

Lemma fetchInventory_only_fetches steamId appId contextId :
  only_fetches (fetchInventory host steamId appId contextId).
Proof. unfold fetchInventory. only_fetches_tac. Qed.

Lemma getUserInventory_only_fetches appId contextId :
  only_fetches (getUserInventory host appId contextId).
Proof.
  unfold getUserInventory.
  apply only_fetches_bind; [apply getSteamId_only_fetches | intros steamId].
  apply only_fetches_bind; [apply fetchInventory_only_fetches | intros inventory].
  apply pure_only_fetches, pure_ret.
Qed.

(** The first call of [fetchInventory] is the request for page 1. *)
Lemma fetchInventory_first_request steamId appId contextId w :
  exists reqs,
    trace (snd (fetchInventory host steamId appId contextId w))
    = trace w ++ map EvFetch (page1_request steamId appId contextId :: reqs).
Proof.
  set (page1 := page1_request steamId appId contextId).
  assert (E : exists k, (forall r, only_fetches (k r)) /\
                fetchInventory host steamId appId contextId = bind (fetch host page1) k).
  { eexists. split; [|reflexivity]. intros r. only_fetches_tac. }
  destruct E as (k & Hk & ->). unfold bind, fetch.
  destruct (host_fetch host (trace w) page1) as [r|e].
  - destruct (Hk r (mkWorld (registered w) (trace w ++ [EvFetch page1]))) as [_ [reqs Ht]].
    exists reqs. rewrite Ht. simpl. rewrite <- app_assoc. reflexivity.
  - exists []. reflexivity.
Qed.

Lemma requests_fetches t reqs : requests (t ++ map EvFetch reqs) = requests t ++ reqs.
Proof.
  unfold requests. rewrite omap_app. f_equal.
  induction reqs as [|r reqs IH]; simpl; [reflexivity | f_equal; exact IH].
Qed.

Lemma responses_fetches t reqs : responses (t ++ map EvFetch reqs) = responses t.
Proof.
  unfold responses. rewrite omap_app.
  replace (omap _ (map EvFetch reqs)) with (@nil JValue); [apply app_nil_r|].
  induction reqs as [|r reqs IH]; simpl; [reflexivity | exact IH].
Qed.

Lemma unhandled_fetches t reqs : unhandled (t ++ map EvFetch reqs) = unhandled t.
Proof.
  unfold unhandled. rewrite omap_app.
  replace (omap _ (map EvFetch reqs)) with (@nil JsError); [apply app_nil_r|].
  induction reqs as [|r reqs IH]; simpl; [reflexivity | exact IH].
Qed.

Lemma string_app_assoc (a b c : string) : (a +:+ b) +:+ c = a +:+ (b +:+ c).
Proof.
  induction a as [|x a IH]; [reflexivity|].
  change (String x ((a +:+ b) +:+ c) = String x (a +:+ (b +:+ c))).
  f_equal. exact IH.
Qed.

End FetchOnlyFacts.

(** C10.  When the profile document has no steamID64, [getUserInventory]
    goes on as [fetchInventory] with [null] for the identity: the next
    request is for [/inventory/null/...], and what that request is answered
    decides the outcome. *)
Theorem getUserInventory_null_identity
    (host : Host) (w : World) (r : Response) (body : string) (appId contextId : JValue) :
  host_fetch host (trace w) profile_request = Normal r ->
  resp_text r = Normal body ->
  ~ Regex.contains_steamID64 body ->
  getUserInventory host appId contextId w
    = fetchInventory host JNull appId contextId (after w (EvFetch profile_request))
  /\ (exists reqs,
        requests (trace (snd (getUserInventory host appId contextId w)))
        = requests (trace w)
            ++ profile_request :: page1_request JNull appId contextId :: reqs)
  /\ req_url (page1_request JNull appId contextId)
     = "https://steamcommunity.com/inventory/null/" +:+ to_string appId +:+ "/"
         +:+ to_string contextId +:+ "?l=english&count=75".
Proof.
  intros Hf Ht Hn.
  assert (Hid : getSteamId host w = (Normal JNull, after w (EvFetch profile_request))).
  { rewrite (getSteamId_resolved host w r body Hf Ht).
    apply RegexFacts.string_match_None in Hn. rewrite Hn. reflexivity. }
  assert (E : getUserInventory host appId contextId w
              = fetchInventory host JNull appId contextId (after w (EvFetch profile_request))).
  { unfold getUserInventory. unfold bind at 1. rewrite Hid.
    unfold bind, ret.
    destruct (fetchInventory host JNull appId contextId (after w (EvFetch profile_request)))
      as [[inventory|e] w']; reflexivity. }
  split; [exact E|]. split.
  - rewrite E.
    destruct (fetchInventory_first_request host JNull appId contextId
                (after w (EvFetch profile_request))) as [reqs Hr].
    exists reqs. rewrite Hr. simpl trace.
    rewrite requests_fetches, requests_after_fetch, <- app_assoc. reflexivity.
  - unfold page1_request, inventory_url. simpl req_url. simpl to_string.
    rewrite !string_app_assoc. reflexivity.
Qed.

Lemma getUserInventory_null_identity_witness :
  getUserInventory Scenario.logged_out (JNum 730) (JNum 2) initial_world
  = fetchInventory Scenario.logged_out JNull (JNum 730) (JNum 2)
      (after initial_world (EvFetch profile_request))
  /\ req_url (page1_request JNull (JNum 730) (JNum 2))
     = "https://steamcommunity.com/inventory/null/730/2?l=english&count=75"
  /\ fst (getUserInventory Scenario.logged_out (JNum 730) (JNum 2) initial_world)
     = Throw (Error "Failed to fetch inventory: Bad Request").
Proof.
  destruct (getUserInventory_null_identity Scenario.logged_out initial_world
              (Scenario.response_200 "<html><title>Sign In</title></html>" Scenario.not_json)
              "<html><title>Sign In</title></html>" (JNum 730) (JNum 2)
              eq_refl eq_refl login_page_has_no_steamID64) as (E & _ & Hurl).
  split; [exact E|]. split; [exact Hurl|]. rewrite E. reflexivity.
Defined.

(** ** Command dispatcher *)

Section DispatchFacts.

Variable host : Host.

Lemma envelope_of_is_envelope p : is_envelope (envelope_of p).
Proof. destruct p; [left | right]; eexists; reflexivity. Qed.

(** When [fn()] returns a promise, [executeCommand] answers once, with the
    envelope of its settlement, and its own promise is fulfilled. *)
Lemma executeCommand_settled (fn : M (Promise JValue)) w p w1 :
  fn w = (Normal p, w1) ->
  executeCommand fn sendResponse w
  = (Normal JUndefined, after w1 (EvRespond (envelope_of p))).
Proof.
  intros Hfn. unfold executeCommand. unfold bind at 1. rewrite Hfn.
  destruct p as [payload|e]; reflexivity.
Qed.

(** When [fn()] throws, nothing is answered and the promise of
    [executeCommand] is rejected. *)
Lemma executeCommand_thrown (fn : M (Promise JValue)) respond w e w1 :
  fn w = (Throw e, w1) ->
  executeCommand fn respond w = (Throw e, w1).
Proof. intros Hfn. unfold executeCommand. unfold bind at 1. rewrite Hfn. reflexivity. Qed.

End DispatchFacts.

(** C4, as stated, fails on a [get-inventory] message without [data]:
    reading [data.appId] throws inside [fn()], before there is a promise
    to attach [catch] to, so nothing is answered and the rejection of
    [executeCommand] is left unhandled. *)
Lemma runtime_onMessage_without_data_counterexample :
  get_prop (JObj [("event", JStr "get-inventory")]) "event" = Normal (JStr "get-inventory")
  /\ responses (trace (snd (runtime_onMessage Scenario.logged_out
                              (JObj [("event", JStr "get-inventory")]) JNull
                              sendResponse initial_world))) = []
  /\ unhandled (trace (snd (runtime_onMessage Scenario.logged_out
                              (JObj [("event", JStr "get-inventory")]) JNull
                              sendResponse initial_world)))
     = [TypeError "Cannot read properties of undefined (reading 'appId')"]
  /\ ~ (forall (host : Host) (message sender : JValue) (w : World),
          get_prop message "event" = Normal (JStr "get-inventory") ->
          exists envelope,
            is_envelope envelope
            /\ responses (trace (snd (runtime_onMessage host message sender sendResponse w)))
               = responses (trace w) ++ [envelope]
            /\ unhandled (trace (snd (runtime_onMessage host message sender sendResponse w)))
               = unhandled (trace w)).
Proof.
  repeat split.
  intros H.
  destruct (H Scenario.logged_out (JObj [("event", JStr "get-inventory")]) JNull
              initial_world eq_refl) as (envelope & _ & Hr & _).
  discriminate Hr.
Qed.

(** C4, amended.  A [get-inventory] message whose [data] is neither
    [undefined] nor [null] is answered exactly once, with
    [{success: true, payload}] when [getUserInventory] resolves and with
    [{success: false, error: message}] when it rejects; the listener returns
    [true] and no rejection is left unhandled. *)
Theorem runtime_onMessage_envelope
    (host : Host) (w : World) (message sender data : JValue) :
  get_prop message "event" = Normal (JStr "get-inventory") ->
  get_prop message "data" = Normal data ->
  data <> JUndefined ->
  data <> JNull ->
  exists appId contextId envelope,
    get_prop data "appId" = Normal appId
    /\ get_prop data "contextId" = Normal contextId
    /\ envelope = match fst (getUserInventory host appId contextId w) with
                  | Normal payload => envelope_success payload
                  | Throw e => envelope_failure (err_message e)
                  end
    /\ is_envelope envelope
    /\ runtime_onMessage host message sender sendResponse w
       = (Normal true,
          after (snd (getUserInventory host appId contextId w)) (EvRespond envelope))
    /\ responses (trace (snd (runtime_onMessage host message sender sendResponse w)))
       = responses (trace w) ++ [envelope]
    /\ unhandled (trace (snd (runtime_onMessage host message sender sendResponse w)))
       = unhandled (trace w).
Proof.
  intros Hev Hdata Hu Hn.
  assert (Hprops : exists appId contextId,
             get_prop data "appId" = Normal appId
             /\ get_prop data "contextId" = Normal contextId).
  { destruct data; try contradiction; simpl; eauto. }
  destruct Hprops as (appId & contextId & Ha & Hc).
  exists appId, contextId, (envelope_of (fst (getUserInventory host appId contextId w))).
  assert (E : runtime_onMessage host message sender sendResponse w
              = (Normal true,
                 after (snd (getUserInventory host appId contextId w))
                       (EvRespond (envelope_of (fst (getUserInventory host appId contextId w)))))).
  { unfold runtime_onMessage. unfold bind at 1, lift at 1. rewrite Hev.
    unfold bind at 1, lift at 1. rewrite Hdata. simpl strict_eq_str. cbv iota.
    unfold bind at 1. unfold spawn. unfold bind at 1. unfold call_async at 1.
    rewrite (executeCommand_settled _ w (fst (getUserInventory host appId contextId w))
               (snd (getUserInventory host appId contextId w))).
    - reflexivity.
    - unfold bind at 1, lift at 1. rewrite Ha. unfold bind at 1, lift at 1. rewrite Hc.
      unfold call_async. destruct (getUserInventory host appId contextId w). reflexivity. }
  repeat split; try assumption.
  - apply envelope_of_is_envelope.
  - rewrite E. cbn [snd trace after].
    destruct (getUserInventory_only_fetches host appId contextId w) as [_ [reqs Ht]].
    rewrite Ht. unfold responses at 1. rewrite omap_app. fold (responses (trace w ++ map EvFetch reqs)).
    rewrite responses_fetches. reflexivity.
  - rewrite E. cbn [snd trace after].
    destruct (getUserInventory_only_fetches host appId contextId w) as [_ [reqs Ht]].
    rewrite Ht. unfold unhandled at 1. rewrite omap_app. fold (unhandled (trace w ++ map EvFetch reqs)).
    rewrite unhandled_fetches. simpl. apply app_nil_r.
Qed.

Lemma runtime_onMessage_envelope_witness :
  responses (trace (snd (runtime_onMessage Scenario.single_page
                           Scenario.get_inventory_message JNull sendResponse initial_world)))
  = [envelope_success Scenario.small_inventory]
  /\ responses (trace (snd (runtime_onMessage Scenario.logged_out
                              Scenario.get_inventory_message JNull sendResponse initial_world)))
     = [envelope_failure "Failed to fetch inventory: Bad Request"]
  /\ unhandled (trace (snd (runtime_onMessage Scenario.logged_out
                              Scenario.get_inventory_message JNull sendResponse initial_world)))
     = [].
Proof.
  destruct (runtime_onMessage_envelope Scenario.single_page initial_world
              Scenario.get_inventory_message JNull
              (JObj [("appId", JNum 730); ("contextId", JNum 2)])
              eq_refl eq_refl ltac:(discriminate) ltac:(discriminate))
    as (a1 & c1 & env1 & Ha1 & Hc1 & He1 & _ & _ & Hr1 & _).
  destruct (runtime_onMessage_envelope Scenario.logged_out initial_world
              Scenario.get_inventory_message JNull
              (JObj [("appId", JNum 730); ("contextId", JNum 2)])
              eq_refl eq_refl ltac:(discriminate) ltac:(discriminate))
    as (a2 & c2 & env2 & Ha2 & Hc2 & He2 & _ & _ & Hr2 & Hu2).
  injection Ha1 as <-. injection Hc1 as <-. injection Ha2 as <-. injection Hc2 as <-.
  rewrite Hr1, Hr2, Hu2, He1, He2. repeat split.
Defined.

(** * Further properties of the worker *)

(** ** The match set as a set *)

Section SetFacts.

Lemma Set_spread_foldl items : Set_spread items = foldl add_origin [] items.
Proof. reflexivity. Qed.

Lemma add_origins_elem_of (items seen : list string) (x : string) :
  x ∈ foldl add_origin seen items <-> x ∈ seen \/ x ∈ items.
Proof.
  revert seen. induction items as [|y items IH]; intros seen; cbn [foldl].
  - rewrite elem_of_nil. tauto.
  - rewrite IH, elem_of_cons. unfold add_origin.
    destruct (bool_decide_reflect (y ∈ seen)) as [Hin|Hout].
    + split; [tauto|]. intros [H|[->|H]]; tauto.
    + rewrite elem_of_app, list_elem_of_singleton. tauto.
Qed.

Lemma add_origins_NoDup (items seen : list string) :
  NoDup seen -> NoDup (foldl add_origin seen items).
Proof.
  revert seen. induction items as [|y items IH]; intros seen Hnd; cbn [foldl]; [exact Hnd|].
  apply IH. unfold add_origin.
  destruct (bool_decide_reflect (y ∈ seen)) as [Hin|Hout]; [exact Hnd|].
  apply NoDup_app. repeat split; [exact Hnd | | apply NoDup_singleton].
  intros x Hx Hx'. apply list_elem_of_singleton in Hx'. subst. contradiction.
Qed.

Lemma add_origins_known (items seen : list string) :
  (forall x, x ∈ items -> x ∈ seen) -> foldl add_origin seen items = seen.
Proof.
  revert seen. induction items as [|y items IH]; intros seen H; cbn [foldl]; [reflexivity|].
  unfold add_origin at 2. rewrite bool_decide_true by (apply H; left).
  apply IH. intros x Hx. apply H. right. exact Hx.
Qed.

Lemma add_origins_split (items a b : list string) :
  foldl add_origin (a ++ b) items
  = a ++ foldl add_origin b (filter (fun x => x ∉ a) items).
Proof.
  revert b. induction items as [|y items IH]; intros b; cbn [foldl]; [reflexivity|].
  rewrite filter_cons.
  destruct (decide (y ∉ a)) as [Hout|Hin].
  - cbn [foldl]. unfold add_origin at 2 4.
    destruct (bool_decide_reflect (y ∈ b)) as [Hb|Hb].
    + rewrite bool_decide_true by (apply elem_of_app; right; exact Hb). apply IH.
    + rewrite bool_decide_false by (rewrite elem_of_app; tauto).
      rewrite <- app_assoc. apply IH.
  - assert (Hy : y ∈ a) by (destruct (decide (y ∈ a)); tauto).
    unfold add_origin at 2. rewrite bool_decide_true by (apply elem_of_app; left; exact Hy). apply IH.
Qed.

Lemma add_origins_NoDup_id (items : list string) :
  NoDup items -> foldl add_origin [] items = items.
Proof.
  intros Hnd. induction Hnd as [|y items Hy Hnd IH]; [reflexivity|].
  cbn [foldl]. unfold add_origin at 2.
  rewrite bool_decide_false by apply not_elem_of_nil. cbn [app].
  change [y] with ([y] ++ []). rewrite add_origins_split.
  assert (Hf : filter (fun x => x ∉ [y]) items = items).
  { clear IH Hnd. induction items as [|z items IHi]; [reflexivity|].
    rewrite filter_cons. rewrite not_elem_of_cons in Hy. destruct Hy as [Hne Hy].
    destruct (decide (z ∉ [y])) as [_|Hz].
    - f_equal. apply IHi. exact Hy.
    - exfalso. apply Hz. rewrite list_elem_of_singleton. congruence. }
  rewrite Hf, IH. reflexivity.
Qed.

End SetFacts.

(** ** The grant listener *)

Section GrantFacts.

Variable host : Host.

Lemma Set_spread_nonempty (a b : list string) : b <> [] -> Set_spread (a ++ b) <> [].
Proof.
  intros Hb E. destruct b as [|x b]; [contradiction|].
  assert (Hx : x ∈ Set_spread (a ++ x :: b)).
  { rewrite Set_spread_foldl, add_origins_elem_of, elem_of_app, elem_of_cons. tauto. }
  rewrite E in Hx. apply elem_of_nil in Hx. exact Hx.
Qed.

Lemma update_registered w s matches :
  matches <> [] ->
  registered w !! "content-script" = Some s ->
  scripting_updateContentScripts host [content_script matches] w
  = (Normal tt, mkWorld (<["content-script" := content_script matches]> (registered w))
                        (trace w ++ [EvUpdate [content_script matches]])).
Proof.
  intros Hm Hs. unfold scripting_updateContentScripts, refused_matches. simpl existsb.
  rewrite (bool_decide_false (matches = [])) by assumption.
  rewrite andb_false_r. simpl.
  rewrite bool_decide_true; [reflexivity|].
  constructor; [simpl; rewrite Hs; eauto | constructor].
Qed.

(** What a non-empty grant does: one read of the registry, then one
    registration or one update with the merged match set. *)
Lemma permissions_onAdded_result w origins :
  origins <> [] ->
  permissions_onAdded host origins w
  = (Normal tt,
     mkWorld (<["content-script" := content_script (Set_spread (current_matches w ++ origins))]>
                (registered w))
       (trace w ++ [EvConsole "debug" "Permission added for" [js_strings origins];
                    EvGetRegistered ["content-script"];
                    match registered w !! "content-script" with
                    | Some _ => EvUpdate [content_script (Set_spread (current_matches w ++ origins))]
                    | None => EvRegister [content_script (Set_spread (current_matches w ++ origins))]
                    end;
                    EvConsole "debug"
                      "Updated content script following origin permission change"
                      [js_strings (Set_spread (current_matches w ++ origins))]])).
Proof.
  intros Hne. unfold permissions_onAdded, current_matches.
  destruct origins as [|o os]; [contradiction|].
  change (length (o :: os) =? 0) with false. cbv iota.
  unfold bind at 1, console at 1, log at 1. cbv beta iota.
  unfold bind at 1. rewrite getRegistered_content_script. cbn [registered trace after].
  destruct (registered w !! "content-script") as [s|] eqn:Hs; cbn [head].
  - unfold bind. rewrite (update_registered _ s) by first [exact Hs | apply Set_spread_nonempty; discriminate].
    unfold console, log. simpl. rewrite <- !app_assoc. reflexivity.
  - unfold bind. rewrite register_fresh by first [exact Hs | apply Set_spread_nonempty; discriminate].
    unfold console, log. simpl. rewrite <- !app_assoc. reflexivity.
Qed.

End GrantFacts.

(** X1.  After a non-empty grant the companion script is registered with the
    fixed attributes and a match list without repetition that holds exactly
    the patterns registered before and the origins granted; no other
    registered script is touched. *)
Theorem permissions_onAdded_union (host : Host) (w : World) (origins : list string) :
  origins <> [] ->
  exists matches,
    fst (permissions_onAdded host origins w) = Normal tt
    /\ registered (snd (permissions_onAdded host origins w)) !! "content-script"
       = Some (content_script matches)
    /\ NoDup matches
    /\ (forall o, o ∈ matches <-> o ∈ current_matches w \/ o ∈ origins)
    /\ (forall i, i <> "content-script" ->
          registered (snd (permissions_onAdded host origins w)) !! i = registered w !! i).
Proof.
  intros Hne. exists (Set_spread (current_matches w ++ origins)).
  rewrite (permissions_onAdded_result host w origins Hne). cbn [fst snd registered].
  repeat split.
  - apply lookup_insert_eq.
  - rewrite Set_spread_foldl. apply add_origins_NoDup. constructor.
  - rewrite Set_spread_foldl, add_origins_elem_of, elem_of_app, elem_of_nil. tauto.
  - rewrite Set_spread_foldl, add_origins_elem_of, elem_of_app, elem_of_nil. tauto.
  - intros i Hi. apply lookup_insert_ne. congruence.
Qed.

Lemma permissions_onAdded_union_witness :
  exists matches,
    registered (snd (permissions_onAdded Scenario.script_present
                       ["https://b.com/*"; "https://a.com/*"; "https://b.com/*"]
                       (Scenario.registered_for ["https://a.com/*"]))) !! "content-script"
    = Some (content_script matches)
    /\ NoDup matches
    /\ ("https://b.com/*" ∈ matches).
Proof.
  destruct (permissions_onAdded_union Scenario.script_present
              (Scenario.registered_for ["https://a.com/*"])
              ["https://b.com/*"; "https://a.com/*"; "https://b.com/*"])
    as (matches & _ & Hr & Hnd & Hin & _); [discriminate|].
  exists matches. repeat split; [exact Hr | exact Hnd |].
  apply Hin. right. left.
Defined.

(** X2.  A grant keeps the registered patterns where they are and appends
    the origins that are new, each once, in the order of the event. *)
Theorem permissions_onAdded_appends (host : Host) (w : World) (origins : list string) :
  origins <> [] ->
  NoDup (current_matches w) ->
  registered (snd (permissions_onAdded host origins w)) !! "content-script"
  = Some (content_script
            (current_matches w
               ++ Set_spread (filter (fun o => o ∉ current_matches w) origins))).
Proof.
  intros Hne Hnd.
  rewrite (permissions_onAdded_result host w origins Hne). cbn [snd registered].
  rewrite lookup_insert_eq. do 2 f_equal.
  rewrite !Set_spread_foldl, foldl_app, (add_origins_NoDup_id _ Hnd).
  rewrite <- (app_nil_r (current_matches w)) at 1. apply add_origins_split.
Qed.

Lemma permissions_onAdded_appends_witness :
  registered (snd (permissions_onAdded Scenario.script_present
                     ["https://b.com/*"; "https://a.com/*"; "https://b.com/*"]
                     (Scenario.registered_for ["https://a.com/*"]))) !! "content-script"
  = Some (content_script ["https://a.com/*"; "https://b.com/*"]).
Proof.
  apply (permissions_onAdded_appends Scenario.script_present
           (Scenario.registered_for ["https://a.com/*"])
           ["https://b.com/*"; "https://a.com/*"; "https://b.com/*"]).
  - discriminate.
  - apply NoDup_singleton.
Defined.

(** X3.  A grant creates the registration when there is none and updates it
    when there is one: one call of the one kind, none of the other, never
    an unregistration, and never with an empty match list. *)
Theorem permissions_onAdded_register_or_update
    (host : Host) (w : World) (origins : list string) :
  origins <> [] ->
  let matches := Set_spread (current_matches w ++ origins) in
  matches <> []
  /\ unregistrations (trace (snd (permissions_onAdded host origins w)))
     = unregistrations (trace w)
  /\ match registered w !! "content-script" with
     | None =>
         registrations (trace (snd (permissions_onAdded host origins w)))
           = registrations (trace w) ++ [[content_script matches]]
         /\ updates (trace (snd (permissions_onAdded host origins w))) = updates (trace w)
     | Some _ =>
         updates (trace (snd (permissions_onAdded host origins w)))
           = updates (trace w) ++ [[content_script matches]]
         /\ registrations (trace (snd (permissions_onAdded host origins w)))
            = registrations (trace w)
     end.
Proof.
  intros Hne matches. subst matches.
  split; [apply Set_spread_nonempty; exact Hne|].
  rewrite (permissions_onAdded_result host w origins Hne). cbn [snd trace].
  unfold unregistrations, registrations, updates. rewrite !omap_app.
  destruct (registered w !! "content-script"); simpl; rewrite ?app_nil_r; auto.
Qed.

Lemma permissions_onAdded_register_or_update_witness :
  registrations (trace (snd (permissions_onAdded Scenario.script_present
                               ["https://a.com/*"] initial_world)))
  = [[content_script ["https://a.com/*"]]]
  /\ updates (trace (snd (permissions_onAdded Scenario.script_present
                            ["https://b.com/*"]
                            (Scenario.registered_for ["https://a.com/*"]))))
     = [[content_script ["https://a.com/*"; "https://b.com/*"]]].
Proof.
  destruct (permissions_onAdded_register_or_update Scenario.script_present initial_world
              ["https://a.com/*"]) as (_ & _ & H1 & _); [discriminate|].
  destruct (permissions_onAdded_register_or_update Scenario.script_present
              (Scenario.registered_for ["https://a.com/*"]) ["https://b.com/*"])
    as (_ & _ & H2 & _); [discriminate|].
  split; [exact H1 | exact H2].
Defined.

(** X4.  Granting the same origins a second time changes nothing in the
    registry. *)
Theorem permissions_onAdded_idempotent (host : Host) (w : World) (origins : list string) :
  registered (snd (permissions_onAdded host origins
                     (snd (permissions_onAdded host origins w))))
  = registered (snd (permissions_onAdded host origins w)).
Proof.
  destruct origins as [|o os]; [reflexivity|].
  set (origins := o :: os).
  assert (Hne : origins <> []) by discriminate.
  rewrite (permissions_onAdded_result host _ origins Hne).
  rewrite (permissions_onAdded_result host w origins Hne).
  cbn [snd registered]. unfold current_matches at 1. cbn [registered].
  rewrite lookup_insert_eq. cbn [cs_matches content_script].
  rewrite insert_insert_eq. f_equal. f_equal.
  set (S := Set_spread (current_matches w ++ origins)).
  rewrite Set_spread_foldl, foldl_app.
  assert (HS : NoDup S) by (unfold S; rewrite Set_spread_foldl; apply add_origins_NoDup; constructor).
  rewrite (add_origins_NoDup_id _ HS).
  apply add_origins_known. intros x Hx. unfold S.
  rewrite Set_spread_foldl, add_origins_elem_of, elem_of_app. tauto.
Qed.

(** ** The revocation listener *)

Section RevokeFacts.

Variable host : Host.

(** A revocation that leaves some match pattern: the outcome, the registry
    and the trace afterwards. *)
Lemma permissions_onRemoved_keeps w s removedOrigins :
  removedOrigins <> [] ->
  registered w !! "content-script" = Some s ->
  filter (fun origin => origin ∉ removedOrigins) (cs_matches s) <> [] ->
  permissions_onRemoved host removedOrigins w
  = (Normal tt,
     mkWorld (<["content-script" :=
                  content_script (filter (fun origin => origin ∉ removedOrigins)
                                         (cs_matches s))]> (registered w))
       (trace w ++ [EvConsole "debug" "Removed permission for" [js_strings removedOrigins];
                    EvGetRegistered ["content-script"];
                    EvUpdate [content_script (filter (fun origin => origin ∉ removedOrigins)
                                                     (cs_matches s))];
                    EvConsole "debug"
                      "Updated content script following origin permission change"
                      [js_strings (filter (fun origin => origin ∉ removedOrigins)
                                          (cs_matches s))]])).
Proof.
  intros Hne Hs Hrem.
  rewrite (permissions_onRemoved_registered host w s removedOrigins Hne Hs). cbv zeta.
  set (remaining := filter (fun origin => origin ∉ removedOrigins) (cs_matches s)) in *.
  assert (Hl : negb (length remaining =? 0) = true)
    by (destruct remaining; [contradiction | reflexivity]).
  rewrite Hl.
  unfold bind. rewrite (update_registered host _ s) by first [exact Hs | exact Hrem].
  unfold console, log. simpl. rewrite <- !app_assoc. reflexivity.
Qed.

(** A revocation when nothing is registered: the registry is read and left
    alone. *)
Lemma permissions_onRemoved_absent w removedOrigins :
  removedOrigins <> [] ->
  registered w !! "content-script" = None ->
  permissions_onRemoved host removedOrigins w
  = (Normal tt,
     mkWorld (registered w)
       (trace w ++ [EvConsole "debug" "Removed permission for" [js_strings removedOrigins];
                    EvGetRegistered ["content-script"];
                    EvConsole "debug"
                      "Updated content script following origin permission change"
                      [js_strings []]])).
Proof.
  intros Hne Hs. unfold permissions_onRemoved.
  destruct removedOrigins as [|o os]; [contradiction|].
  change (length (o :: os) =? 0) with false. cbv iota.
  unfold bind at 1, console at 1, log at 1. cbv beta iota.
  unfold bind at 1. rewrite getRegistered_content_script. cbn [registered trace after].
  rewrite Hs. unfold bind, ret, console, log, after. simpl.
  rewrite <- !app_assoc. reflexivity.
Qed.

Lemma remaining_cases (removedOrigins matches : list string) :
  filter (fun origin => origin ∉ removedOrigins) matches <> []
  \/ (forall origin, origin ∈ matches -> origin ∈ removedOrigins).
Proof.
  destruct (filter (fun origin => origin ∉ removedOrigins) matches) as [|o rest] eqn:E.
  - right. intros origin Hin. destruct (decide (origin ∈ removedOrigins)) as [H|H]; [exact H|].
    assert (Hf : origin ∈ filter (fun origin => origin ∉ removedOrigins) matches)
      by (apply list_elem_of_filter; split; assumption).
    rewrite E in Hf. apply elem_of_nil in Hf. contradiction.
  - left. discriminate.
Qed.

Lemma filter_filter_same (removedOrigins matches : list string) :
  filter (fun origin => origin ∉ removedOrigins)
         (filter (fun origin => origin ∉ removedOrigins) matches)
  = filter (fun origin => origin ∉ removedOrigins) matches.
Proof.
  induction matches as [|o matches IH]; [reflexivity|].
  rewrite filter_cons. destruct (decide (o ∉ removedOrigins)) as [H|H]; [|exact IH].
  rewrite filter_cons. destruct (decide (o ∉ removedOrigins)); [|contradiction].
  f_equal. exact IH.
Qed.

End RevokeFacts.

(** X5.  A revocation never calls [registerContentScripts], whatever the
    registry holds: the branch that would is not reachable. *)
Theorem permissions_onRemoved_never_registers
    (host : Host) (w : World) (origins : list string) :
  registrations (trace (snd (permissions_onRemoved host origins w)))
  = registrations (trace w).
Proof.
  destruct origins as [|o os]; [reflexivity|].
  assert (Hne : o :: os <> []) by discriminate.
  destruct (registered w !! "content-script") as [s|] eqn:Hs.
  - destruct (remaining_cases (o :: os) (cs_matches s)) as [Hrem|Hall].
    + rewrite (permissions_onRemoved_keeps host w s _ Hne Hs Hrem). cbn [snd trace].
      unfold registrations. rewrite omap_app. simpl. apply app_nil_r.
    + rewrite (permissions_onRemoved_unregisters host w s _ Hne Hs Hall). cbn [snd trace].
      unfold registrations. rewrite omap_app. simpl. apply app_nil_r.
  - rewrite (permissions_onRemoved_absent host w _ Hne Hs). cbn [snd trace].
    unfold registrations. rewrite omap_app. simpl. apply app_nil_r.
Qed.

(** X6.  A revocation that finds no registration completes without
    registering, updating or unregistering anything, and leaves the
    registry as it was. *)
Theorem permissions_onRemoved_without_registration
    (host : Host) (w : World) (origins : list string) :
  registered w !! "content-script" = None ->
  fst (permissions_onRemoved host origins w) = Normal tt
  /\ registered (snd (permissions_onRemoved host origins w)) = registered w
  /\ registrations (trace (snd (permissions_onRemoved host origins w)))
     = registrations (trace w)
  /\ updates (trace (snd (permissions_onRemoved host origins w))) = updates (trace w)
  /\ unregistrations (trace (snd (permissions_onRemoved host origins w)))
     = unregistrations (trace w).
Proof.
  intros Hs. destruct origins as [|o os]; [repeat split|].
  rewrite (permissions_onRemoved_absent host w (o :: os)) by (discriminate || exact Hs).
  cbn [fst snd registered trace].
  unfold registrations, updates, unregistrations. rewrite !omap_app. simpl.
  rewrite !app_nil_r. repeat split.
Qed.

Lemma permissions_onRemoved_without_registration_witness :
  registered initial_world !! "content-script" = None
  /\ fst (permissions_onRemoved Scenario.script_present ["https://a.com/*"] initial_world)
     = Normal tt
  /\ registered (snd (permissions_onRemoved Scenario.script_present ["https://a.com/*"]
                        initial_world)) = ∅.
Proof.
  assert (Hs : registered initial_world !! "content-script" = None) by reflexivity.
  destruct (permissions_onRemoved_without_registration Scenario.script_present
              initial_world ["https://a.com/*"] Hs) as (H1 & H2 & _).
  repeat split; assumption.
Defined.

(** X7.  A revocation that leaves some pattern updates the registration to
    the registered patterns that were not revoked, in their order: one
    update, no unregistration, other scripts untouched. *)
Theorem permissions_onRemoved_difference
    (host : Host) (w : World) (s : ContentScript) (origins : list string) (kept : string) :
  origins <> [] ->
  registered w !! "content-script" = Some s ->
  kept ∈ cs_matches s ->
  kept ∉ origins ->
  let remaining := filter (fun origin => origin ∉ origins) (cs_matches s) in
  fst (permissions_onRemoved host origins w) = Normal tt
  /\ registered (snd (permissions_onRemoved host origins w)) !! "content-script"
     = Some (content_script remaining)
  /\ (forall o, o ∈ remaining <-> o ∈ cs_matches s /\ o ∉ origins)
  /\ remaining `sublist_of` cs_matches s
  /\ updates (trace (snd (permissions_onRemoved host origins w)))
     = updates (trace w) ++ [[content_script remaining]]
  /\ unregistrations (trace (snd (permissions_onRemoved host origins w)))
     = unregistrations (trace w)
  /\ (forall i, i <> "content-script" ->
        registered (snd (permissions_onRemoved host origins w)) !! i = registered w !! i).
Proof.
  intros Hne Hs Hin Hout remaining.
  assert (Hrem : remaining <> []).
  { intros E. assert (Hk : kept ∈ remaining) by (apply list_elem_of_filter; split; assumption).
    rewrite E in Hk. apply elem_of_nil in Hk. exact Hk. }
  rewrite (permissions_onRemoved_keeps host w s origins Hne Hs Hrem).
  cbn [fst snd registered trace]. fold remaining.
  unfold updates, unregistrations. rewrite !omap_app. simpl. rewrite !app_nil_r.
  split; [reflexivity|]. split; [apply lookup_insert_eq|].
  split; [intros o'; unfold remaining; rewrite list_elem_of_filter; tauto|].
  split; [apply sublist_filter|].
  split; [reflexivity|]. split; [reflexivity|].
  intros i Hi. apply lookup_insert_ne. congruence.
Qed.

Lemma permissions_onRemoved_difference_witness :
  registered (snd (permissions_onRemoved Scenario.script_present ["https://b.com/*"]
                     (Scenario.registered_for
                        ["https://a.com/*"; "https://b.com/*"; "https://c.com/*"])))
    !! "content-script"
  = Some (content_script ["https://a.com/*"; "https://c.com/*"]).
Proof.
  destruct (permissions_onRemoved_difference Scenario.script_present
              (Scenario.registered_for ["https://a.com/*"; "https://b.com/*"; "https://c.com/*"])
              (content_script ["https://a.com/*"; "https://b.com/*"; "https://c.com/*"])
              ["https://b.com/*"] "https://a.com/*")
    as (_ & H & _).
  - discriminate.
  - reflexivity.
  - left.
  - intros H. apply list_elem_of_singleton in H. discriminate.
  - exact H.
Defined.

(** X8.  Revoking the same origins a second time changes nothing in the
    registry. *)
Theorem permissions_onRemoved_idempotent (host : Host) (w : World) (origins : list string) :
  registered (snd (permissions_onRemoved host origins
                     (snd (permissions_onRemoved host origins w))))
  = registered (snd (permissions_onRemoved host origins w)).
Proof.
  destruct origins as [|o os]; [reflexivity|].
  set (origins := o :: os).
  assert (Hne : origins <> []) by discriminate.
  destruct (registered w !! "content-script") as [s|] eqn:Hs.
  - destruct (remaining_cases origins (cs_matches s)) as [Hrem|Hall].
    + rewrite (permissions_onRemoved_keeps host w s _ Hne Hs Hrem).
      cbn [snd].
      erewrite permissions_onRemoved_keeps;
        [ | exact Hne | cbn [registered]; apply lookup_insert_eq
          | cbn [cs_matches content_script]; rewrite filter_filter_same; exact Hrem ].
      cbn [snd registered cs_matches content_script].
      rewrite filter_filter_same, insert_insert_eq. reflexivity.
    + rewrite (permissions_onRemoved_unregisters host w s _ Hne Hs Hall). cbn [snd].
      rewrite permissions_onRemoved_absent;
        [reflexivity | exact Hne | cbn [registered]; apply lookup_delete_eq].
  - rewrite (permissions_onRemoved_absent host w _ Hne Hs). cbn [snd].
    rewrite permissions_onRemoved_absent; [reflexivity | exact Hne | exact Hs].
Qed.

(** ** Both listeners together *)

(** X9.  Both permission listeners keep the registration well formed: when
    there is one, it has the fixed attributes and a non-empty match list
    without repetition. *)
Theorem permission_listeners_keep_registration_well_formed
    (host : Host) (w : World) (origins : list string) :
  well_formed_registration w ->
  well_formed_registration (snd (permissions_onAdded host origins w))
  /\ well_formed_registration (snd (permissions_onRemoved host origins w)).
Proof.
  intros Hwf. destruct origins as [|o os]; [split; exact Hwf|].
  set (origins := o :: os). assert (Hne : origins <> []) by discriminate.
  split.
  - rewrite (permissions_onAdded_result host w origins Hne).
    unfold well_formed_registration. cbn [snd registered]. rewrite lookup_insert_eq.
    cbn [cs_matches content_script].
    split; [reflexivity|]. split; [apply Set_spread_nonempty; exact Hne|].
    rewrite Set_spread_foldl. apply add_origins_NoDup. constructor.
  - unfold well_formed_registration in Hwf |- *.
    destruct (registered w !! "content-script") as [s|] eqn:Hs.
    + destruct (remaining_cases origins (cs_matches s)) as [Hrem|Hall].
      * rewrite (permissions_onRemoved_keeps host w s _ Hne Hs Hrem).
        cbn [snd registered]. rewrite lookup_insert_eq. cbn [cs_matches content_script].
        split; [reflexivity|]. split; [exact Hrem|].
        apply NoDup_filter. tauto.
      * rewrite (permissions_onRemoved_unregisters host w s _ Hne Hs Hall).
        cbn [snd registered]. rewrite lookup_delete_eq. exact I.
    + rewrite (permissions_onRemoved_absent host w _ Hne Hs). cbn [snd registered].
      rewrite Hs. exact I.
Qed.

Lemma registered_for_well_formed :
  well_formed_registration (Scenario.registered_for ["https://a.com/*"; "https://b.com/*"]).
Proof.
  unfold well_formed_registration. simpl.
  split; [reflexivity|]. split; [discriminate|].
  apply NoDup_cons. split; [|apply NoDup_singleton].
  intros H. apply list_elem_of_singleton in H. discriminate.
Qed.

Lemma permission_listeners_keep_registration_well_formed_witness :
  well_formed_registration
    (snd (permissions_onAdded Scenario.script_present ["https://a.com/*"; "https://c.com/*"]
            (Scenario.registered_for ["https://a.com/*"; "https://b.com/*"])))
  /\ well_formed_registration
       (snd (permissions_onRemoved Scenario.script_present
               ["https://a.com/*"; "https://c.com/*"]
               (Scenario.registered_for ["https://a.com/*"; "https://b.com/*"]))).
Proof.
  apply (permission_listeners_keep_registration_well_formed Scenario.script_present
           (Scenario.registered_for ["https://a.com/*"; "https://b.com/*"])
           ["https://a.com/*"; "https://c.com/*"]).
  exact registered_for_well_formed.
Defined.

Section RestoreFacts.

Lemma filter_all_kept (removedOrigins matches : list string) :
  (forall o, o ∈ matches -> o ∉ removedOrigins) ->
  filter (fun origin => origin ∉ removedOrigins) matches = matches.
Proof.
  induction matches as [|m matches IH]; intros H; [reflexivity|].
  rewrite filter_cons. destruct (decide (m ∉ removedOrigins)) as [_|Hm].
  - f_equal. apply IH. intros o Ho. apply H. right. exact Ho.
  - exfalso. apply Hm, H. left.
Qed.

Lemma filter_none_kept (removedOrigins matches : list string) :
  (forall o, o ∈ matches -> o ∈ removedOrigins) ->
  filter (fun origin => origin ∉ removedOrigins) matches = [].
Proof.
  induction matches as [|m matches IH]; intros H; [reflexivity|].
  rewrite filter_cons. destruct (decide (m ∉ removedOrigins)) as [Hm|_].
  - exfalso. apply Hm, H. left.
  - apply IH. intros o Ho. apply H. right. exact Ho.
Qed.

End RestoreFacts.

(** X10.  On a well-formed registration, granting origins that are not
    registered and then revoking the same origins gives back the registry
    as it was. *)
Theorem grant_then_revoke_restores
    (host : Host) (w : World) (s : ContentScript) (origins : list string) :
  well_formed_registration w ->
  registered w !! "content-script" = Some s ->
  (forall o, o ∈ origins -> o ∉ cs_matches s) ->
  registered (snd (permissions_onRemoved host origins
                     (snd (permissions_onAdded host origins w))))
  = registered w.
Proof.
  intros Hwf Hs Hfresh. destruct origins as [|o os]; [reflexivity|].
  set (origins := o :: os) in *. assert (Hne : origins <> []) by discriminate.
  unfold well_formed_registration in Hwf. rewrite Hs in Hwf.
  destruct Hwf as (Hcanon & Hms & Hnd).
  rewrite (permissions_onAdded_result host w origins Hne). cbn [snd].
  assert (Hcur : current_matches w = cs_matches s) by (unfold current_matches; rewrite Hs; reflexivity).
  rewrite Hcur.
  set (added := Set_spread (cs_matches s ++ origins)).
  assert (Hadded : added = cs_matches s ++ Set_spread origins).
  { unfold added. rewrite !Set_spread_foldl, foldl_app, (add_origins_NoDup_id _ Hnd).
    rewrite <- (app_nil_r (cs_matches s)) at 1. rewrite add_origins_split.
    rewrite filter_all_kept; [reflexivity|]. intros x Hx Hx'. exact (Hfresh x Hx Hx'). }
  assert (Hfilter : filter (fun origin => origin ∉ origins) added = cs_matches s).
  { rewrite Hadded, filter_app, (filter_none_kept origins (Set_spread origins)), app_nil_r.
    - apply filter_all_kept. intros x Hx Hx'. exact (Hfresh x Hx' Hx).
    - intros x Hx. rewrite Set_spread_foldl, add_origins_elem_of, elem_of_nil in Hx. tauto. }
  erewrite permissions_onRemoved_keeps;
    [ | exact Hne | cbn [registered]; apply lookup_insert_eq
      | cbn [cs_matches content_script]; fold added; rewrite Hfilter; exact Hms ].
  cbn [snd registered cs_matches content_script]. fold added.
  rewrite Hfilter, insert_insert_eq, <- Hcanon. apply insert_id. exact Hs.
Qed.

Lemma grant_then_revoke_restores_witness :
  registered (snd (permissions_onRemoved Scenario.script_present ["https://c.com/*"]
                     (snd (permissions_onAdded Scenario.script_present ["https://c.com/*"]
                             (Scenario.registered_for
                                ["https://a.com/*"; "https://b.com/*"])))))
  = registered (Scenario.registered_for ["https://a.com/*"; "https://b.com/*"]).
Proof.
  apply (grant_then_revoke_restores Scenario.script_present
           (Scenario.registered_for ["https://a.com/*"; "https://b.com/*"])
           (content_script ["https://a.com/*"; "https://b.com/*"]) ["https://c.com/*"]).
  - exact registered_for_well_formed.
  - reflexivity.
  - intros o Ho Hin. apply list_elem_of_singleton in Ho. subst o.
    apply elem_of_cons in Hin as [Hin|Hin]; [discriminate|].
    apply list_elem_of_singleton in Hin. discriminate.
Defined.

(** ** More on the readiness handshake *)

Section HandshakeShape.

Variable host : Host.
Variable tabId : Z.

(** The calls of an attempt that is not the first: a probe, and at most one
    injection after it. *)
Lemma ensureContentScript_last_attempt_calls attempt w :
  attempt <> 0 ->
  (ensureContentScript host tabId attempt w
     = (Normal true, mkWorld (registered w) (trace w ++ take 1 (handshake_calls tabId))))
  \/ (exists e,
        ensureContentScript host tabId attempt w
        = (Throw e, mkWorld (registered w) (trace w ++ take 2 (handshake_calls tabId)))).
Proof.
  intros Ha.
  destruct (probe_cases (host_sendMessage host (trace w) tabId probe_message))
    as [(res & Hp & Hd)|Hp].
  - left. rewrite (ensureContentScript_ready _ _ _ _ _ Hp Hd). reflexivity.
  - right.
    destruct (host_executeScript host (trace (after w (EvSendMessage tabId probe_message)))
                tabId content_script_files) as [[]|e] eqn:He.
    + exists (injection_error tabId). rewrite (ensureContentScript_give_up _ _ _ _ Ha Hp He).
      unfold after. simpl. rewrite <- app_assoc. reflexivity.
    + exists e. rewrite (ensureContentScript_injection_refused _ _ _ _ _ Hp He).
      unfold after. simpl. rewrite <- app_assoc. reflexivity.
Qed.

(** The calls of a whole handshake: a non-empty prefix of probe, injection,
    probe, injection; it resolves when the prefix ends with a probe. *)
Lemma ensureContentScript_calls w :
  exists n,
    snd (ensureContentScript host tabId 0 w)
    = mkWorld (registered w) (trace w ++ take n (handshake_calls tabId))
    /\ (((n = 1 \/ n = 3) /\ fst (ensureContentScript host tabId 0 w) = Normal true)
        \/ ((n = 2 \/ n = 4) /\ exists e, fst (ensureContentScript host tabId 0 w) = Throw e)).
Proof.
  destruct (probe_cases (host_sendMessage host (trace w) tabId probe_message))
    as [(res & Hp & Hd)|Hp].
  - exists 1. rewrite (ensureContentScript_ready _ _ _ _ _ Hp Hd). split; [reflexivity|].
    left. split; [left|]; reflexivity.
  - destruct (host_executeScript host (trace (after w (EvSendMessage tabId probe_message)))
                tabId content_script_files) as [[]|e] eqn:He.
    + rewrite (ensureContentScript_retry _ _ _ Hp He).
      set (w2 := after (after w (EvSendMessage tabId probe_message))
                       (EvExecuteScript tabId content_script_files)).
      destruct (ensureContentScript_last_attempt_calls 1 w2 ltac:(discriminate))
        as [E|[e E]]; rewrite E.
      * exists 3. split; [|left; split; [right|]; reflexivity].
        unfold w2, after. simpl. rewrite <- !app_assoc. reflexivity.
      * exists 4. split; [|right; split; [right; reflexivity | exists e; reflexivity]].
        unfold w2, after. simpl. rewrite <- !app_assoc. reflexivity.
    + exists 2. rewrite (ensureContentScript_injection_refused _ _ _ _ _ Hp He).
      split; [|right; split; [left; reflexivity | exists e; reflexivity]].
      unfold after. simpl. rewrite <- !app_assoc. reflexivity.
Qed.

End HandshakeShape.

(** X11.  Whatever the tab and the host do, the calls of a handshake are a
    non-empty prefix of: probe, injection, probe, injection.  It resolves
    (with [true]) exactly when it stops after a probe, and fails when it
    stops after an injection; the registry is not touched. *)
Theorem ensureContentScript_call_sequence (host : Host) (tabId : Z) (w : World) :
  exists n,
    trace (snd (ensureContentScript host tabId 0 w))
      = trace w ++ take n (handshake_calls tabId)
    /\ registered (snd (ensureContentScript host tabId 0 w)) = registered w
    /\ (((n = 1 \/ n = 3) /\ fst (ensureContentScript host tabId 0 w) = Normal true)
        \/ ((n = 2 \/ n = 4) /\ exists e, fst (ensureContentScript host tabId 0 w) = Throw e)).
Proof.
  destruct (ensureContentScript_calls host tabId w) as (n & Hw & Hn).
  exists n. rewrite Hw. repeat split. exact Hn.
Qed.

(** X12.  When the first probe fails, the injection is carried out and the
    second probe is answered, the handshake resolves with [true] after one
    injection and two probes. *)
Theorem ensureContentScript_recovers
    (host : Host) (tabId : Z) (w : World) (res : JValue) :
  probe_fails (host_sendMessage host (trace w) tabId probe_message) ->
  host_executeScript host (trace w ++ [EvSendMessage tabId probe_message])
    tabId content_script_files = Normal tt ->
  host_sendMessage host
    (trace w ++ [EvSendMessage tabId probe_message;
                 EvExecuteScript tabId content_script_files])
    tabId probe_message = Normal res ->
  res <> JUndefined ->
  ensureContentScript host tabId 0 w
    = (Normal true,
       mkWorld (registered w)
         (trace w ++ [EvSendMessage tabId probe_message;
                      EvExecuteScript tabId content_script_files;
                      EvSendMessage tabId probe_message]))
  /\ injections (trace (snd (ensureContentScript host tabId 0 w)))
     = injections (trace w) ++ [(tabId, content_script_files)].
Proof.
  intros Hp He Hp2 Hres.
  assert (Hu : is_undefined res = false) by (destruct res; simpl; congruence).
  assert (E : ensureContentScript host tabId 0 w
    = (Normal true,
       mkWorld (registered w)
         (trace w ++ [EvSendMessage tabId probe_message;
                      EvExecuteScript tabId content_script_files;
                      EvSendMessage tabId probe_message]))).
  { rewrite (ensureContentScript_retry host tabId w Hp He).
    rewrite (ensureContentScript_ready host tabId 1 _ res).
    - unfold after. simpl. rewrite <- !app_assoc. reflexivity.
    - unfold after. simpl. rewrite <- app_assoc. exact Hp2.
    - exact Hu. }
  split; [exact E|]. rewrite E. cbn [snd trace].
  unfold injections. rewrite omap_app. reflexivity.
Qed.

Lemma ensureContentScript_recovers_witness :
  probe_fails (host_sendMessage Edge.injectable [] 7 probe_message)
  /\ fst (ensureContentScript Edge.injectable 7 0 initial_world) = Normal true
  /\ injections (trace (snd (ensureContentScript Edge.injectable 7 0 initial_world)))
     = [(7%Z, content_script_files)].
Proof.
  assert (Hp : probe_fails (host_sendMessage Edge.injectable (trace initial_world) 7
                              probe_message)) by exact I.
  destruct (ensureContentScript_recovers Edge.injectable 7 initial_world (JObj [])
              Hp eq_refl eq_refl ltac:(discriminate)) as (E & Hi).
  split; [exact Hp|]. split; [rewrite E; reflexivity | exact Hi].
Defined.

(** X13.  Called with a truthy [attempt], as the retry does, the handshake
    probes once and injects at most once: it never calls itself again. *)
Theorem ensureContentScript_no_second_retry
    (host : Host) (tabId : Z) (attempt : nat) (w : World) :
  attempt <> 0 ->
  length (probes (trace (snd (ensureContentScript host tabId attempt w))))
    = length (probes (trace w)) + 1
  /\ length (injections (trace (snd (ensureContentScript host tabId attempt w))))
     <= length (injections (trace w)) + 1
  /\ (forall e, fst (ensureContentScript host tabId attempt w) = Throw e ->
        length (injections (trace (snd (ensureContentScript host tabId attempt w))))
        = length (injections (trace w)) + 1).
Proof.
  intros Ha.
  destruct (ensureContentScript_last_attempt_calls host tabId attempt w Ha) as [E|[e E]];
    rewrite E; cbn [fst snd trace]; unfold probes, injections; rewrite !omap_app, !length_app;
    simpl; repeat split; try lia; intros e' He'; try discriminate; lia.
Qed.

Lemma ensureContentScript_no_second_retry_witness :
  length (probes (trace (snd (ensureContentScript Scenario.no_receiver 7 1 initial_world))))
    = 1
  /\ length (injections (trace (snd (ensureContentScript Scenario.no_receiver 7 1
                                       initial_world)))) <= 1.
Proof.
  destruct (ensureContentScript_no_second_retry Scenario.no_receiver 7 1 initial_world
              ltac:(discriminate)) as (H1 & H2 & _).
  split; [exact H1 | exact H2].
Defined.

(** X14.  A click on the action runs one handshake in the clicked tab: at
    most two probes and two injections, no request, no response, no change
    to the registry; the listener's promise is rejected exactly when the
    handshake fails, with the same error. *)
Theorem action_onClicked_runs_handshake (host : Host) (tab_id : Z) (w : World) :
  snd (action_onClicked host tab_id w) = snd (ensureContentScript host tab_id 0 w)
  /\ (forall e, fst (action_onClicked host tab_id w) = Throw e
                <-> fst (ensureContentScript host tab_id 0 w) = Throw e)
  /\ length (probes (trace (snd (action_onClicked host tab_id w))))
     <= length (probes (trace w)) + 2
  /\ length (injections (trace (snd (action_onClicked host tab_id w))))
     <= length (injections (trace w)) + 2
  /\ requests (trace (snd (action_onClicked host tab_id w))) = requests (trace w)
  /\ responses (trace (snd (action_onClicked host tab_id w))) = responses (trace w)
  /\ registered (snd (action_onClicked host tab_id w)) = registered w.
Proof.
  assert (Hs : snd (action_onClicked host tab_id w) = snd (ensureContentScript host tab_id 0 w)).
  { unfold action_onClicked, bind, ret.
    destruct (ensureContentScript host tab_id 0 w) as [[b|e] w']; reflexivity. }
  assert (Hf : forall e, fst (action_onClicked host tab_id w) = Throw e
                         <-> fst (ensureContentScript host tab_id 0 w) = Throw e).
  { intros e. unfold action_onClicked, bind, ret.
    destruct (ensureContentScript host tab_id 0 w) as [[b|e'] w']; simpl;
      split; intros H; congruence. }
  split; [exact Hs|]. split; [exact Hf|]. rewrite Hs.
  destruct (ensureContentScript_calls host tab_id w) as (n & Hw & Hn).
  rewrite Hw. cbn [trace registered].
  assert (Hcases : n = 1 \/ n = 2 \/ n = 3 \/ n = 4) by (destruct Hn as [[Hn _]|[Hn _]]; tauto).
  unfold probes, injections, requests, responses. rewrite !omap_app, !length_app.
  destruct Hcases as [-> | [-> | [-> | ->]]]; simpl; rewrite ?app_nil_r; repeat split; lia.
Qed.

(** ** More on the inventory fetcher *)

Section FetcherShape.

Variable host : Host.
Variables steamId appId contextId : JValue.

(** [fetchInventory], step by step on the answer to the first request. *)
Lemma fetchInventory_steps w :
  fetchInventory host steamId appId contextId w
  = let w1 := after w (EvFetch (page1_request steamId appId contextId)) in
    match host_fetch host (trace w) (page1_request steamId appId contextId) with
    | Throw e => (Throw e, w1)
    | Normal r =>
        if resp_ok r then
          match resp_json r with
          | Throw e => (Throw e, w1)
          | Normal inventory =>
              match get_prop inventory "more_items" with
              | Throw e => (Throw e, w1)
              | Normal more_items =>
                  if truthy more_items then
                    match get_prop inventory "last_assetid" with
                    | Throw e => (Throw e, w1)
                    | Normal cursor =>
                        bind (fetch host (page2_request steamId appId contextId cursor))
                             (merge_second_page inventory) w1
                    end
                  else (Normal inventory, w1)
              end
          end
        else (Throw (Error ("Failed to fetch inventory: " +:+ resp_statusText r)), w1)
    end.
Proof.
  cbv zeta. unfold fetchInventory.
  fold (inventory_url steamId appId contextId). fold (inventory_headers steamId).
  fold (page1_request steamId appId contextId).
  unfold bind at 1. unfold fetch at 1.
  destruct (host_fetch host (trace w) (page1_request steamId appId contextId)) as [r|e];
    [|reflexivity].
  unfold bind at 1. destruct (resp_ok r); simpl negb; cbv iota; [|reflexivity].
  unfold ret at 1. unfold bind at 1. unfold lift at 1.
  destruct (resp_json r) as [inventory|e]; [|reflexivity].
  unfold bind at 1. unfold lift at 1.
  destruct (get_prop inventory "more_items") as [more_items|e]; [|reflexivity].
  destruct (truthy more_items); [|reflexivity].
  unfold bind at 1. unfold lift at 1.
  destruct (get_prop inventory "last_assetid") as [cursor|e]; reflexivity.
Qed.

Lemma merge_second_page_pure inventory response : pure (merge_second_page inventory response).
Proof.
  unfold merge_second_page.
  repeat (apply pure_bind; [|intros]); auto with js_pure.
  destruct (negb (resp_ok response)); auto with js_pure.
Qed.

(** The requests of one call: the first page, and at most one more. *)
Lemma fetchInventory_requests w :
  registered (snd (fetchInventory host steamId appId contextId w)) = registered w
  /\ (trace (snd (fetchInventory host steamId appId contextId w))
        = trace w ++ [EvFetch (page1_request steamId appId contextId)]
      \/ exists cursor,
           trace (snd (fetchInventory host steamId appId contextId w))
           = trace w ++ [EvFetch (page1_request steamId appId contextId);
                         EvFetch (page2_request steamId appId contextId cursor)]).
Proof.
  rewrite fetchInventory_steps. cbv zeta.
  destruct (host_fetch host (trace w) (page1_request steamId appId contextId)) as [r|e];
    [|split; [reflexivity | left; reflexivity]].
  destruct (resp_ok r); [|split; [reflexivity | left; reflexivity]].
  destruct (resp_json r) as [inventory|e]; [|split; [reflexivity | left; reflexivity]].
  destruct (get_prop inventory "more_items") as [more_items|e];
    [|split; [reflexivity | left; reflexivity]].
  destruct (truthy more_items); [|split; [reflexivity | left; reflexivity]].
  destruct (get_prop inventory "last_assetid") as [cursor|e];
    [|split; [reflexivity | left; reflexivity]].
  unfold bind, fetch.
  destruct (host_fetch host _ (page2_request steamId appId contextId cursor)) as [r2|e].
  - pose proof (merge_second_page_pure inventory r2) as Hp. unfold pure in Hp.
    rewrite !Hp. split; [reflexivity|]. right. exists cursor.
    simpl. rewrite <- app_assoc. reflexivity.
  - split; [reflexivity|]. right. exists cursor. simpl. rewrite <- app_assoc. reflexivity.
Qed.

End FetcherShape.

(** X15.  Whatever the service answers, [fetchInventory] issues the request
    for page 1 and at most one more request, and makes no other call. *)
Theorem fetchInventory_at_most_two_requests
    (host : Host) (steamId appId contextId : JValue) (w : World) :
  registered (snd (fetchInventory host steamId appId contextId w)) = registered w
  /\ (trace (snd (fetchInventory host steamId appId contextId w))
        = trace w ++ [EvFetch (page1_request steamId appId contextId)]
      \/ exists cursor,
           trace (snd (fetchInventory host steamId appId contextId w))
           = trace w ++ [EvFetch (page1_request steamId appId contextId);
                         EvFetch (page2_request steamId appId contextId cursor)]).
Proof. apply fetchInventory_requests. Qed.

Section MergeFacts.

Variable host : Host.
Variables steamId appId contextId : JValue.

Lemma merge_second_page_not_ok inventory response w :
  resp_ok response = false ->
  merge_second_page inventory response w
  = (Throw (Error ("Failed to fetch additional inventory: " +:+ resp_statusText response)), w).
Proof. intros H. unfold merge_second_page, bind. rewrite H. reflexivity. Qed.

Lemma merge_second_page_resolved_ok inventory response w result w' :
  merge_second_page inventory response w = (Normal result, w') -> resp_ok response = true.
Proof.
  destruct (resp_ok response) eqn:E; [reflexivity|].
  rewrite merge_second_page_not_ok by exact E. discriminate.
Qed.

(** The merge of two parsed pages, when page 1 has its two arrays. *)
Lemma merge_second_page_arrays fields response additionalInventory
      assets1 descriptions1 x2 y2 w :
  resp_ok response = true ->
  resp_json response = Normal additionalInventory ->
  get_prop (JObj fields) "assets" = Normal (JArr assets1) ->
  get_prop (JObj fields) "descriptions" = Normal (JArr descriptions1) ->
  get_prop additionalInventory "assets" = Normal x2 ->
  get_prop additionalInventory "descriptions" = Normal y2 ->
  exists last_assetid more_items,
    get_prop additionalInventory "last_assetid" = Normal last_assetid
    /\ get_prop additionalInventory "more_items" = Normal more_items
    /\ merge_second_page (JObj fields) response w
       = (Normal (JObj (assoc_set "more_items" more_items
                   (assoc_set "last_assetid" last_assetid
                     (assoc_set "descriptions"
                        (JArr (descriptions1 ++ concat_spread (js_or y2 (JArr []))))
                        (assoc_set "assets"
                           (JArr (assets1 ++ concat_spread (js_or x2 (JArr []))))
                           fields))))), w).
Proof.
  intros Hok Hj Ha1 Hd1 Hx2 Hy2.
  assert (Hobj2 : exists c1 c2, get_prop additionalInventory "last_assetid" = Normal c1
                                /\ get_prop additionalInventory "more_items" = Normal c2).
  { destruct additionalInventory; simpl in Hx2; try discriminate; simpl; eauto. }
  destruct Hobj2 as (l2 & m2 & Hl2 & Hm2). exists l2, m2.
  split; [exact Hl2|]. split; [exact Hm2|].
  unfold merge_second_page. unfold bind at 1. rewrite Hok. simpl negb. cbv iota. unfold ret at 1.
  unfold bind, lift. rewrite Hj, Ha1. simpl get_concat. cbv iota beta.
  rewrite Hx2. cbv iota beta. simpl set_prop. cbv iota beta.
  rewrite get_prop_set_other by discriminate. rewrite Hd1. simpl get_concat. cbv iota beta.
  rewrite Hy2. cbv iota beta. simpl set_prop. cbv iota beta.
  rewrite Hl2. simpl set_prop. cbv iota beta. rewrite Hm2. simpl set_prop. cbv iota beta.
  reflexivity.
Qed.

(** The second request and what is done with its answer, when page 1
    announces more items. *)
Lemma fetchInventory_more_items w r1 inventory more_items cursor :
  host_fetch host (trace w) (page1_request steamId appId contextId) = Normal r1 ->
  resp_ok r1 = true ->
  resp_json r1 = Normal inventory ->
  get_prop inventory "more_items" = Normal more_items ->
  truthy more_items = true ->
  get_prop inventory "last_assetid" = Normal cursor ->
  fetchInventory host steamId appId contextId w
  = match host_fetch host (trace w ++ [EvFetch (page1_request steamId appId contextId)])
            (page2_request steamId appId contextId cursor) with
    | Normal r2 =>
        merge_second_page inventory r2
          (mkWorld (registered w)
             (trace w ++ [EvFetch (page1_request steamId appId contextId);
                          EvFetch (page2_request steamId appId contextId cursor)]))
    | Throw e =>
        (Throw e,
         mkWorld (registered w)
           (trace w ++ [EvFetch (page1_request steamId appId contextId);
                        EvFetch (page2_request steamId appId contextId cursor)]))
    end.
Proof.
  intros Hf Hok Hj Hm Ht Hc. rewrite fetchInventory_steps. cbv zeta.
  rewrite Hf, Hok, Hj, Hm, Ht, Hc. unfold bind, fetch, after. cbn [trace registered].
  rewrite <- app_assoc.
  destruct (host_fetch host _ (page2_request steamId appId contextId cursor)); reflexivity.
Qed.

End MergeFacts.

(** X16.  [fetchInventory] resolves only with what ok responses carried:
    the first response was ok and parsed, and either it is the result and
    the only request, or a second request was made and its response was ok
    too. *)
Theorem fetchInventory_resolves_only_on_ok
    (host : Host) (steamId appId contextId : JValue) (w : World) (result : JValue) :
  fst (fetchInventory host steamId appId contextId w) = Normal result ->
  exists r1 page,
    host_fetch host (trace w) (page1_request steamId appId contextId) = Normal r1
    /\ resp_ok r1 = true
    /\ resp_json r1 = Normal page
    /\ ((result = page
         /\ trace (snd (fetchInventory host steamId appId contextId w))
            = trace w ++ [EvFetch (page1_request steamId appId contextId)])
        \/ exists cursor r2,
             get_prop page "last_assetid" = Normal cursor
             /\ host_fetch host (trace w ++ [EvFetch (page1_request steamId appId contextId)])
                  (page2_request steamId appId contextId cursor) = Normal r2
             /\ resp_ok r2 = true).
Proof.
  rewrite fetchInventory_steps. cbv zeta.
  destruct (host_fetch host (trace w) (page1_request steamId appId contextId)) as [r1|e]
    eqn:Hf1; [|discriminate].
  destruct (resp_ok r1) eqn:Hok; [|discriminate].
  destruct (resp_json r1) as [page|e] eqn:Hj; [|discriminate].
  destruct (get_prop page "more_items") as [more_items|e]; [|discriminate].
  destruct (truthy more_items).
  - destruct (get_prop page "last_assetid") as [cursor|e] eqn:Hc; [|discriminate].
    unfold bind, fetch. cbn [trace after].
    destruct (host_fetch host _ (page2_request steamId appId contextId cursor)) as [r2|e] eqn:Hf2;
      [|discriminate].
    intros Hres. exists r1, page.
    split; [reflexivity|]. split; [exact Hok|]. split; [exact Hj|].
    right. exists cursor, r2.
    split; [exact Hc|]. split; [exact Hf2|].
    destruct (merge_second_page page r2 _) as [c w'] eqn:Hm. simpl in Hres. subst c.
    exact (merge_second_page_resolved_ok _ _ _ _ _ Hm).
  - intros [= <-]. exists r1, page.
    split; [reflexivity|]. split; [exact Hok|]. split; [exact Hj|].
    left. split; reflexivity.
Qed.

Lemma fetchInventory_resolves_only_on_ok_witness :
  exists r1,
    host_fetch Scenario.single_page [] (page1_request Scenario.steamId (JNum 730) (JNum 2))
      = Normal r1
    /\ resp_ok r1 = true.
Proof.
  destruct (fetchInventory_resolves_only_on_ok Scenario.single_page Scenario.steamId
              (JNum 730) (JNum 2) initial_world Scenario.small_inventory eq_refl)
    as (r1 & page & H1 & H2 & _).
  exists r1. split; assumption.
Defined.

(** X17.  A first response that is not ok makes [fetchInventory] fail with
    [Failed to fetch inventory:] and the status text, after that one
    request; its body is not read. *)
Theorem fetchInventory_first_page_not_ok
    (host : Host) (steamId appId contextId : JValue) (w : World) (r1 : Response) :
  host_fetch host (trace w) (page1_request steamId appId contextId) = Normal r1 ->
  resp_ok r1 = false ->
  fetchInventory host steamId appId contextId w
  = (Throw (Error ("Failed to fetch inventory: " +:+ resp_statusText r1)),
     after w (EvFetch (page1_request steamId appId contextId))).
Proof.
  intros Hf Hok. rewrite fetchInventory_steps. cbv zeta. rewrite Hf, Hok. reflexivity.
Qed.

Lemma fetchInventory_first_page_not_ok_witness :
  fetchInventory (Edge.pages (Edge.status "Too Many Requests") (Edge.status "Forbidden"))
    Scenario.steamId (JNum 730) (JNum 2) initial_world
  = (Throw (Error "Failed to fetch inventory: Too Many Requests"),
     after initial_world (EvFetch (page1_request Scenario.steamId (JNum 730) (JNum 2)))).
Proof.
  apply (fetchInventory_first_page_not_ok
           (Edge.pages (Edge.status "Too Many Requests") (Edge.status "Forbidden"))
           Scenario.steamId (JNum 730) (JNum 2) initial_world
           (mkResponse false "Too Many Requests" (Normal "")
              (Throw (SyntaxError "Unexpected end of JSON input"))));
    reflexivity.
Defined.

(** X18.  When page 1 announces more items and the second response is not
    ok, [fetchInventory] fails with [Failed to fetch additional inventory:]
    and the status text, after two requests: the items of page 1 are not
    returned. *)
Theorem fetchInventory_second_page_not_ok
    (host : Host) (steamId appId contextId : JValue) (w : World)
    (r1 r2 : Response) (inventory more_items cursor : JValue) :
  host_fetch host (trace w) (page1_request steamId appId contextId) = Normal r1 ->
  resp_ok r1 = true ->
  resp_json r1 = Normal inventory ->
  get_prop inventory "more_items" = Normal more_items ->
  truthy more_items = true ->
  get_prop inventory "last_assetid" = Normal cursor ->
  host_fetch host (trace w ++ [EvFetch (page1_request steamId appId contextId)])
    (page2_request steamId appId contextId cursor) = Normal r2 ->
  resp_ok r2 = false ->
  fetchInventory host steamId appId contextId w
  = (Throw (Error ("Failed to fetch additional inventory: " +:+ resp_statusText r2)),
     mkWorld (registered w)
       (trace w ++ [EvFetch (page1_request steamId appId contextId);
                    EvFetch (page2_request steamId appId contextId cursor)])).
Proof.
  intros Hf Hok Hj Hm Ht Hc Hf2 Hok2.
  rewrite (fetchInventory_more_items host steamId appId contextId w r1 inventory more_items
             cursor Hf Hok Hj Hm Ht Hc).
  rewrite Hf2. apply merge_second_page_not_ok. exact Hok2.
Qed.

Lemma fetchInventory_second_page_not_ok_witness :
  fst (fetchInventory (Edge.pages (Edge.ok_json Scenario.first_page)
                                  (Edge.status "Too Many Requests"))
         Scenario.steamId (JNum 730) (JNum 2) initial_world)
  = Throw (Error "Failed to fetch additional inventory: Too Many Requests").
Proof.
  rewrite (fetchInventory_second_page_not_ok
             (Edge.pages (Edge.ok_json Scenario.first_page) (Edge.status "Too Many Requests"))
             Scenario.steamId (JNum 730) (JNum 2) initial_world
             (mkResponse true "OK" (Normal "{...}") (Normal Scenario.first_page))
             (mkResponse false "Too Many Requests" (Normal "")
                (Throw (SyntaxError "Unexpected end of JSON input")))
             Scenario.first_page (JBool true) (JStr "1002")
             eq_refl eq_refl eq_refl eq_refl eq_refl eq_refl eq_refl eq_refl).
  reflexivity.
Defined.

(** X19.  An [assets] of page 2 that is truthy and not an array (an object
    keyed by asset id, say) is not spread: the merged [assets] is that of
    page 1 with this one value appended as a single element. *)
Theorem fetchInventory_second_page_assets_not_array
    (host : Host) (steamId appId contextId : JValue) (w : World)
    (r1 r2 : Response) (inventory more_items cursor additionalInventory x2 y2 : JValue)
    (assets1 descriptions1 : list JValue) :
  host_fetch host (trace w) (page1_request steamId appId contextId) = Normal r1 ->
  resp_ok r1 = true ->
  resp_json r1 = Normal inventory ->
  get_prop inventory "more_items" = Normal more_items ->
  truthy more_items = true ->
  get_prop inventory "last_assetid" = Normal cursor ->
  get_prop inventory "assets" = Normal (JArr assets1) ->
  get_prop inventory "descriptions" = Normal (JArr descriptions1) ->
  host_fetch host (trace w ++ [EvFetch (page1_request steamId appId contextId)])
    (page2_request steamId appId contextId cursor) = Normal r2 ->
  resp_ok r2 = true ->
  resp_json r2 = Normal additionalInventory ->
  get_prop additionalInventory "assets" = Normal x2 ->
  get_prop additionalInventory "descriptions" = Normal y2 ->
  truthy x2 = true ->
  (forall items, x2 <> JArr items) ->
  exists merged,
    fst (fetchInventory host steamId appId contextId w) = Normal merged
    /\ get_prop merged "assets" = Normal (JArr (assets1 ++ [x2])).
Proof.
  intros Hf Hok Hj Hm Ht Hc Ha1 Hd1 Hf2 Hok2 Hj2 Hx2 Hy2 Htx Hna.
  destruct (truthy_prop_is_object inventory "more_items" more_items) as [fields ->];
    [discriminate | assumption | assumption |].
  rewrite (fetchInventory_more_items host steamId appId contextId w r1 (JObj fields) more_items
             cursor Hf Hok Hj Hm Ht Hc).
  rewrite Hf2.
  destruct (merge_second_page_arrays fields r2 additionalInventory assets1 descriptions1
              x2 y2 (mkWorld (registered w)
                       (trace w ++ [EvFetch (page1_request steamId appId contextId);
                                    EvFetch (page2_request steamId appId contextId cursor)]))
              Hok2 Hj2 Ha1 Hd1 Hx2 Hy2) as (l2 & m2 & _ & _ & E).
  rewrite E. eexists. split; [reflexivity|].
  rewrite !get_prop_set_other by discriminate. rewrite get_prop_set_same.
  unfold js_or. rewrite Htx.
  destruct x2; try reflexivity. exfalso. eapply Hna. reflexivity.
Qed.

Lemma fetchInventory_second_page_assets_not_array_witness :
  exists merged,
    fst (fetchInventory (Edge.pages (Edge.ok_json Scenario.first_page)
                                    (Edge.ok_json Edge.second_page_keyed))
           Scenario.steamId (JNum 730) (JNum 2) initial_world) = Normal merged
    /\ get_prop merged "assets"
       = Normal (JArr [Scenario.asset "1001"; Scenario.asset "1002";
                       JObj [("1003", Scenario.asset "1003")]]).
Proof.
  apply (fetchInventory_second_page_assets_not_array
           (Edge.pages (Edge.ok_json Scenario.first_page) (Edge.ok_json Edge.second_page_keyed))
           Scenario.steamId (JNum 730) (JNum 2) initial_world
           (mkResponse true "OK" (Normal "{...}") (Normal Scenario.first_page))
           (mkResponse true "OK" (Normal "{...}") (Normal Edge.second_page_keyed))
           Scenario.first_page (JBool true) (JStr "1002") Edge.second_page_keyed
           (JObj [("1003", Scenario.asset "1003")]) (JArr [])
           [Scenario.asset "1001"; Scenario.asset "1002"] [Scenario.description "c1"]);
    try reflexivity.
  intros items. discriminate.
Defined.

(** X20.  When page 1 announces more items and has no [assets], the second
    request is still made, and [fetchInventory] then fails with a
    [TypeError] raised by reading [concat] of [undefined]. *)
Theorem fetchInventory_first_page_without_assets
    (host : Host) (steamId appId contextId : JValue) (w : World)
    (r1 r2 : Response) (inventory more_items cursor additionalInventory : JValue) :
  host_fetch host (trace w) (page1_request steamId appId contextId) = Normal r1 ->
  resp_ok r1 = true ->
  resp_json r1 = Normal inventory ->
  get_prop inventory "more_items" = Normal more_items ->
  truthy more_items = true ->
  get_prop inventory "last_assetid" = Normal cursor ->
  get_prop inventory "assets" = Normal JUndefined ->
  host_fetch host (trace w ++ [EvFetch (page1_request steamId appId contextId)])
    (page2_request steamId appId contextId cursor) = Normal r2 ->
  resp_ok r2 = true ->
  resp_json r2 = Normal additionalInventory ->
  fetchInventory host steamId appId contextId w
  = (Throw (TypeError "Cannot read properties of undefined (reading 'concat')"),
     mkWorld (registered w)
       (trace w ++ [EvFetch (page1_request steamId appId contextId);
                    EvFetch (page2_request steamId appId contextId cursor)])).
Proof.
  intros Hf Hok Hj Hm Ht Hc Ha1 Hf2 Hok2 Hj2.
  rewrite (fetchInventory_more_items host steamId appId contextId w r1 inventory more_items
             cursor Hf Hok Hj Hm Ht Hc).
  rewrite Hf2. unfold merge_second_page. unfold bind at 1. rewrite Hok2. simpl negb. cbv iota.
  unfold ret at 1. unfold bind, lift. rewrite Hj2, Ha1. reflexivity.
Qed.

Lemma fetchInventory_first_page_without_assets_witness :
  fst (fetchInventory (Edge.pages (Edge.ok_json Edge.first_page_without_assets)
                                  (Edge.ok_json Scenario.second_page))
         Scenario.steamId (JNum 730) (JNum 2) initial_world)
  = Throw (TypeError "Cannot read properties of undefined (reading 'concat')")
  /\ length (requests (trace (snd (fetchInventory
                (Edge.pages (Edge.ok_json Edge.first_page_without_assets)
                            (Edge.ok_json Scenario.second_page))
                Scenario.steamId (JNum 730) (JNum 2) initial_world)))) = 2.
Proof.
  rewrite (fetchInventory_first_page_without_assets
             (Edge.pages (Edge.ok_json Edge.first_page_without_assets)
                         (Edge.ok_json Scenario.second_page))
             Scenario.steamId (JNum 730) (JNum 2) initial_world
             (mkResponse true "OK" (Normal "{...}") (Normal Edge.first_page_without_assets))
             (mkResponse true "OK" (Normal "{...}") (Normal Scenario.second_page))
             Edge.first_page_without_assets (JNum 1) (JStr "1002") Scenario.second_page
             eq_refl eq_refl eq_refl eq_refl eq_refl eq_refl eq_refl eq_refl eq_refl eq_refl).
  split; reflexivity.
Defined.

(** X21.  A second response whose body is the JSON value [null] is not
    taken for an empty page: [fetchInventory] fails with a [TypeError]
    raised by reading [assets] of [null]. *)
Theorem fetchInventory_second_page_null
    (host : Host) (steamId appId contextId : JValue) (w : World)
    (r1 r2 : Response) (inventory more_items cursor : JValue) (assets1 : list JValue) :
  host_fetch host (trace w) (page1_request steamId appId contextId) = Normal r1 ->
  resp_ok r1 = true ->
  resp_json r1 = Normal inventory ->
  get_prop inventory "more_items" = Normal more_items ->
  truthy more_items = true ->
  get_prop inventory "last_assetid" = Normal cursor ->
  get_prop inventory "assets" = Normal (JArr assets1) ->
  host_fetch host (trace w ++ [EvFetch (page1_request steamId appId contextId)])
    (page2_request steamId appId contextId cursor) = Normal r2 ->
  resp_ok r2 = true ->
  resp_json r2 = Normal JNull ->
  fst (fetchInventory host steamId appId contextId w)
  = Throw (TypeError "Cannot read properties of null (reading 'assets')").
Proof.
  intros Hf Hok Hj Hm Ht Hc Ha1 Hf2 Hok2 Hj2.
  rewrite (fetchInventory_more_items host steamId appId contextId w r1 inventory more_items
             cursor Hf Hok Hj Hm Ht Hc).
  rewrite Hf2. unfold merge_second_page. unfold bind at 1. rewrite Hok2. simpl negb. cbv iota.
  unfold ret at 1. unfold bind, lift. rewrite Hj2, Ha1. reflexivity.
Qed.

Lemma fetchInventory_second_page_null_witness :
  fst (fetchInventory (Edge.pages (Edge.ok_json Scenario.first_page) (Edge.ok_json JNull))
         Scenario.steamId (JNum 730) (JNum 2) initial_world)
  = Throw (TypeError "Cannot read properties of null (reading 'assets')").
Proof.
  apply (fetchInventory_second_page_null
           (Edge.pages (Edge.ok_json Scenario.first_page) (Edge.ok_json JNull))
           Scenario.steamId (JNum 730) (JNum 2) initial_world
           (mkResponse true "OK" (Normal "{...}") (Normal Scenario.first_page))
           (mkResponse true "OK" (Normal "{...}") (Normal JNull))
           Scenario.first_page (JBool true) (JStr "1002")
           [Scenario.asset "1001"; Scenario.asset "1002"]);
    reflexivity.
Defined.

(** ** More on identity resolution *)

Section LeftmostFacts.

Import Regex.

Lemma search_leftmost p input r :
  search p input = Some r ->
  exists n,
    n <= length input
    /\ match_here p (drop n input) = Some r
    /\ forall k, k < n -> match_here p (drop k input) = None.
Proof.
  induction input as [|c input IH]; simpl.
  - destruct (match_here p []) eqn:H; [|discriminate].
    intros [= <-]. exists 0. split; [lia|]. split; [exact H | intros k Hk; lia].
  - destruct (match_here p (c :: input)) eqn:H.
    + intros [= <-]. exists 0. split; [lia|]. split; [exact H | intros k Hk; lia].
    + intros Hs. destruct (IH Hs) as (n & Hn & Hm & Hmin).
      exists (S n). split; [lia|]. split; [exact Hm|].
      intros [|k] Hk; [exact H | apply Hmin; lia].
Qed.

Lemma steamID64_at_match chars n digits :
  steamID64_at chars n digits ->
  match_here steamID64_re (drop n chars)
  = Some (list_ascii_of_string "<steamID64>" ++ digits
            ++ list_ascii_of_string "</steamID64>", digits).
Proof.
  intros (before & after' & -> & <- & Hl & Hd).
  rewrite drop_app_length. apply RegexFacts.match_here_steamID64.
  exists after'. repeat split; assumption.
Qed.

Lemma match_steamID64_at chars n whole digits :
  n <= length chars ->
  match_here steamID64_re (drop n chars) = Some (whole, digits) ->
  steamID64_at chars n digits.
Proof.
  intros Hn Hm. apply RegexFacts.match_here_steamID64 in Hm as (after' & E & _ & Hl & Hd).
  exists (take n chars), after'. rewrite <- E, take_drop.
  split; [reflexivity|]. split; [apply length_take_le; exact Hn|]. split; assumption.
Qed.

(** When the document contains the element, [match] finds its first
    occurrence. *)
Lemma string_match_first body :
  contains_steamID64 body ->
  exists n whole digits,
    string_match steamID64_re body = Some (whole, string_of_list_ascii digits)
    /\ steamID64_at (list_ascii_of_string body) n digits
    /\ forall n' digits', steamID64_at (list_ascii_of_string body) n' digits' -> n <= n'.
Proof.
  intros Hc. unfold string_match.
  destruct (search steamID64_re (list_ascii_of_string body)) as [[whole g]|] eqn:Hs.
  - destruct (search_leftmost _ _ _ Hs) as (n & Hn & Hm & Hmin).
    exists n, (string_of_list_ascii whole), g. split; [reflexivity|].
    split; [exact (match_steamID64_at _ _ _ _ Hn Hm)|].
    intros n' digits' Hat. destruct (le_lt_dec n n') as [Hle|Hlt]; [exact Hle|].
    specialize (Hmin n' Hlt). rewrite (steamID64_at_match _ _ _ Hat) in Hmin. discriminate.
  - exfalso. assert (Hn : string_match steamID64_re body = None)
      by (unfold string_match; rewrite Hs; reflexivity).
    apply RegexFacts.string_match_None in Hn. contradiction.
Qed.

End LeftmostFacts.

(** X22.  When the profile document contains the steamID64 element,
    [getSteamId] resolves with the 17 digits of its first occurrence,
    whatever the status of the response. *)
Theorem getSteamId_first_steamID64
    (host : Host) (w : World) (r : Response) (body : string) :
  host_fetch host (trace w) profile_request = Normal r ->
  resp_text r = Normal body ->
  Regex.contains_steamID64 body ->
  exists n digits,
    steamID64_at (list_ascii_of_string body) n digits
    /\ (forall n' digits', steamID64_at (list_ascii_of_string body) n' digits' -> n <= n')
    /\ getSteamId host w
       = (Normal (JStr (string_of_list_ascii digits)), after w (EvFetch profile_request)).
Proof.
  intros Hf Ht Hc. destruct (string_match_first body Hc) as (n & whole & digits & Hm & Hat & Hmin).
  exists n, digits. split; [exact Hat|]. split; [exact Hmin|].
  rewrite (getSteamId_resolved host w r body Hf Ht), Hm. reflexivity.
Qed.

Lemma profile_document_contains_steamID64 : Regex.contains_steamID64 Edge.profile_document.
Proof.
  exists (list_ascii_of_string "<profile>"), (list_ascii_of_string "76561198000000001"),
    (list_ascii_of_string
       "<summary><steamID64>76561198000000002</steamID64></summary></profile>").
  split; [reflexivity|]. split; [reflexivity|].
  repeat constructor.
Qed.

Lemma getSteamId_first_steamID64_witness :
  exists n digits,
    steamID64_at (list_ascii_of_string Edge.profile_document) n digits
    /\ getSteamId Edge.signed_in initial_world
       = (Normal (JStr (string_of_list_ascii digits)),
          after initial_world (EvFetch profile_request))
    /\ fst (getSteamId Edge.signed_in initial_world) = Normal (JStr "76561198000000001").
Proof.
  destruct (getSteamId_first_steamID64 Edge.signed_in initial_world
              (mkResponse true "OK" (Normal Edge.profile_document)
                 (Throw (SyntaxError "Unexpected token '<'")))
              Edge.profile_document eq_refl eq_refl profile_document_contains_steamID64)
    as (n & digits & Hat & _ & E).
  exists n, digits. split; [exact Hat|]. split; [exact E|]. reflexivity.
Defined.

(** X23.  [getSteamId] issues exactly one request, the profile request, and
    touches nothing else; it is rejected exactly when [fetch] is rejected
    or reading the body is, with that error. *)
Theorem getSteamId_one_request_and_rejections (host : Host) (w : World) :
  snd (getSteamId host w) = after w (EvFetch profile_request)
  /\ forall e,
       fst (getSteamId host w) = Throw e
       <-> (host_fetch host (trace w) profile_request = Throw e
            \/ exists r, host_fetch host (trace w) profile_request = Normal r
                         /\ resp_text r = Throw e).
Proof.
  unfold getSteamId, bind, fetch, lift, ret. fold profile_request.
  destruct (host_fetch host (trace w) profile_request) as [r|e0] eqn:Hf.
  - destruct (resp_text r) as [body|e0] eqn:Ht; simpl.
    + split; [reflexivity|]. intros e. split; [discriminate|].
      intros [H|(r' & [= <-] & H)]; [discriminate | congruence].
    + split; [reflexivity|]. intros e. split.
      * intros [= <-]. right. exists r. split; [reflexivity | exact Ht].
      * intros [H|(r' & [= <-] & H)]; [discriminate | congruence].
  - simpl. split; [reflexivity|]. intros e. split.
    + intros [= <-]. left. reflexivity.
    + intros [H|(r' & H & _)]; [congruence | discriminate].
Qed.

(** ** More on the inventory command *)

Section CommandFacts.

Variable host : Host.

Lemma getSteamId_world w : snd (getSteamId host w) = after w (EvFetch profile_request).
Proof.
  unfold getSteamId, bind, fetch, lift, ret. fold profile_request.
  destruct (host_fetch host (trace w) profile_request) as [r|e]; [|reflexivity].
  destruct (resp_text r); reflexivity.
Qed.

(** [getUserInventory] in terms of its two steps. *)
Lemma getUserInventory_steps appId contextId w :
  getUserInventory host appId contextId w
  = match fst (getSteamId host w) with
    | Normal steamId =>
        fetchInventory host steamId appId contextId (after w (EvFetch profile_request))
    | Throw e => (Throw e, after w (EvFetch profile_request))
    end.
Proof.
  unfold getUserInventory. unfold bind at 1.
  pose proof (getSteamId_world w) as Hw.
  destruct (getSteamId host w) as [[steamId|e] w1]; simpl in Hw; subst w1; simpl.
  - unfold bind, ret.
    destruct (fetchInventory host steamId appId contextId _) as [[inventory|e] w2]; reflexivity.
  - reflexivity.
Qed.

End CommandFacts.

(** X24.  When the identity cannot be fetched, [getUserInventory] is
    rejected with the same error and no inventory request is made. *)
Theorem getUserInventory_identity_failure
    (host : Host) (appId contextId : JValue) (w : World) (e : JsError) :
  fst (getSteamId host w) = Throw e ->
  getUserInventory host appId contextId w
  = (Throw e, after w (EvFetch profile_request)).
Proof. intros H. rewrite getUserInventory_steps, H. reflexivity. Qed.

Lemma getUserInventory_identity_failure_witness :
  getUserInventory Scenario.no_receiver (JNum 730) (JNum 2) initial_world
  = (Throw (TypeError "Failed to fetch"), after initial_world (EvFetch profile_request)).
Proof.
  apply (getUserInventory_identity_failure Scenario.no_receiver (JNum 730) (JNum 2)
           initial_world (TypeError "Failed to fetch")).
  reflexivity.
Defined.

(** X25.  When the profile document contains the steamID64 element, the
    inventory is requested for the identifier found there: the request that
    follows the profile request has the identifier in its URL and in its
    [Referrer]. *)
Theorem getUserInventory_signed_in
    (host : Host) (w : World) (r : Response) (body : string) (appId contextId : JValue) :
  host_fetch host (trace w) profile_request = Normal r ->
  resp_text r = Normal body ->
  Regex.contains_steamID64 body ->
  exists n digits rest,
    steamID64_at (list_ascii_of_string body) n digits
    /\ getUserInventory host appId contextId w
       = fetchInventory host (JStr (string_of_list_ascii digits)) appId contextId
           (after w (EvFetch profile_request))
    /\ requests (trace (snd (getUserInventory host appId contextId w)))
       = requests (trace w)
           ++ profile_request
           :: mkRequest ("https://steamcommunity.com/inventory/"
                           +:+ string_of_list_ascii digits +:+ "/" +:+ to_string appId
                           +:+ "/" +:+ to_string contextId +:+ "?l=english&count=75")
                        [("Referrer", "https://steamcommunity.com/profiles/"
                                        +:+ string_of_list_ascii digits +:+ "/inventory/");
                         ("Accept", "application/json")]
           :: rest.
Proof.
  intros Hf Ht Hc.
  destruct (string_match_first body Hc) as (n & whole & digits & Hm & Hat & _).
  assert (Hid : fst (getSteamId host w) = Normal (JStr (string_of_list_ascii digits))).
  { rewrite (getSteamId_resolved host w r body Hf Ht), Hm. reflexivity. }
  assert (E : getUserInventory host appId contextId w
              = fetchInventory host (JStr (string_of_list_ascii digits)) appId contextId
                  (after w (EvFetch profile_request))).
  { rewrite getUserInventory_steps, Hid. reflexivity. }
  destruct (fetchInventory_first_request host (JStr (string_of_list_ascii digits))
              appId contextId (after w (EvFetch profile_request))) as [rest Hr].
  exists n, digits, rest. split; [exact Hat|]. split; [exact E|].
  rewrite E, Hr. simpl trace.
  rewrite requests_fetches, requests_after_fetch, <- app_assoc. simpl.
  unfold page1_request, inventory_url, inventory_headers. simpl to_string.
  rewrite !string_app_assoc. reflexivity.
Qed.

Lemma getUserInventory_signed_in_witness :
  exists n digits rest,
    steamID64_at (list_ascii_of_string Edge.profile_document) n digits
    /\ getUserInventory Edge.signed_in (JNum 730) (JNum 2) initial_world
       = fetchInventory Edge.signed_in (JStr (string_of_list_ascii digits)) (JNum 730) (JNum 2)
           (after initial_world (EvFetch profile_request))
    /\ requests (trace (snd (getUserInventory Edge.signed_in (JNum 730) (JNum 2)
                               initial_world)))
       = profile_request
         :: mkRequest ("https://steamcommunity.com/inventory/"
                         +:+ string_of_list_ascii digits +:+ "/730/2?l=english&count=75")
                      [("Referrer", "https://steamcommunity.com/profiles/"
                                      +:+ string_of_list_ascii digits +:+ "/inventory/");
                       ("Accept", "application/json")]
         :: rest.
Proof.
  destruct (getUserInventory_signed_in Edge.signed_in initial_world
              (mkResponse true "OK" (Normal Edge.profile_document)
                 (Throw (SyntaxError "Unexpected token '<'")))
              Edge.profile_document (JNum 730) (JNum 2)
              eq_refl eq_refl profile_document_contains_steamID64)
    as (n & digits & rest & Hat & E & Hr).
  exists n, digits, rest. split; [exact Hat|]. split; [exact E|]. exact Hr.
Defined.

(** X26.  Whatever the service answers, [getUserInventory] issues the
    profile request first and at most two requests after it, and makes no
    other call. *)
Theorem getUserInventory_at_most_three_requests
    (host : Host) (appId contextId : JValue) (w : World) :
  registered (snd (getUserInventory host appId contextId w)) = registered w
  /\ exists inventory_requests,
       trace (snd (getUserInventory host appId contextId w))
       = trace w ++ EvFetch profile_request :: map EvFetch inventory_requests
       /\ length inventory_requests <= 2.
Proof.
  rewrite getUserInventory_steps.
  destruct (fst (getSteamId host w)) as [steamId|e].
  - destruct (fetchInventory_requests host steamId appId contextId
                (after w (EvFetch profile_request))) as (Hreg & [Ht|[cursor Ht]]).
    + split; [exact Hreg|]. exists [page1_request steamId appId contextId].
      rewrite Ht. simpl. rewrite <- app_assoc. split; [reflexivity | lia].
    + split; [exact Hreg|].
      exists [page1_request steamId appId contextId;
              page2_request steamId appId contextId cursor].
      rewrite Ht. simpl. rewrite <- app_assoc. split; [reflexivity | lia].
  - split; [reflexivity|]. exists []. split; [reflexivity | simpl; lia].
Qed.

(** ** More on the command dispatcher *)

Section ListenerFacts.

Variable host : Host.

Lemma spawn_returns {A} (body : M A) w : fst (spawn body w) = Normal tt.
Proof.
  unfold spawn, bind, call_async. destruct (body w) as [[a|e] w']; reflexivity.
Qed.

(** The listener on a message it does not recognise. *)
Lemma runtime_onMessage_unknown message sender respond w event data :
  get_prop message "event" = Normal event ->
  get_prop message "data" = Normal data ->
  strict_eq_str event "get-inventory" = false ->
  runtime_onMessage host message sender respond w
  = (Normal true, after w (EvConsole "warn" "Unknown event" [event])).
Proof.
  intros He Hd Hne. unfold runtime_onMessage.
  unfold bind at 1, lift at 1. rewrite He. unfold bind at 1, lift at 1. rewrite Hd.
  rewrite Hne. reflexivity.
Qed.

(** The listener on a [get-inventory] message whose [data] can be read. *)
Lemma runtime_onMessage_get_inventory message sender w event data appId contextId :
  get_prop message "event" = Normal event ->
  get_prop message "data" = Normal data ->
  strict_eq_str event "get-inventory" = true ->
  get_prop data "appId" = Normal appId ->
  get_prop data "contextId" = Normal contextId ->
  runtime_onMessage host message sender sendResponse w
  = (Normal true,
     after (snd (getUserInventory host appId contextId w))
           (EvRespond (envelope_of (fst (getUserInventory host appId contextId w))))).
Proof.
  intros He Hd Heq Ha Hc. unfold runtime_onMessage.
  unfold bind at 1, lift at 1. rewrite He. unfold bind at 1, lift at 1. rewrite Hd.
  rewrite Heq. unfold bind at 1. unfold spawn. unfold bind at 1. unfold call_async at 1.
  rewrite (executeCommand_settled _ w (fst (getUserInventory host appId contextId w))
             (snd (getUserInventory host appId contextId w))).
  - reflexivity.
  - unfold bind at 1, lift at 1. rewrite Ha. unfold bind at 1, lift at 1. rewrite Hc.
    unfold call_async. destruct (getUserInventory host appId contextId w). reflexivity.
Qed.

(** The listener on a [get-inventory] message whose [data] cannot be read. *)
Lemma runtime_onMessage_get_inventory_no_data message sender respond w event data e :
  get_prop message "event" = Normal event ->
  get_prop message "data" = Normal data ->
  strict_eq_str event "get-inventory" = true ->
  get_prop data "appId" = Throw e ->
  runtime_onMessage host message sender respond w
  = (Normal true, after w (EvUnhandledRejection e)).
Proof.
  intros He Hd Heq Ha. unfold runtime_onMessage.
  unfold bind at 1, lift at 1. rewrite He. unfold bind at 1, lift at 1. rewrite Hd.
  rewrite Heq. unfold bind at 1. unfold spawn. unfold bind at 1. unfold call_async at 1.
  rewrite (executeCommand_thrown _ respond w e w).
  - reflexivity.
  - unfold bind at 1, lift at 1. rewrite Ha. reflexivity.
Qed.

Lemma get_prop_defined v k :
  v <> JUndefined -> v <> JNull -> exists x, get_prop v k = Normal x.
Proof. intros Hu Hn. destruct v; try contradiction; simpl; eauto. Qed.

Lemma get_prop_cases v k k' :
  (exists x x', get_prop v k = Normal x /\ get_prop v k' = Normal x')
  \/ (exists e, get_prop v k = Throw e).
Proof. destruct v; simpl; eauto. Qed.

End ListenerFacts.

(** X27.  A message whose event is not [get-inventory] is ignored: the
    listener logs a warning and returns [true]; nothing is requested, no
    response is sent and the response callback is not called. *)
Theorem runtime_onMessage_unknown_event
    (host : Host) (message sender : JValue) (respond : JValue -> M JValue) (w : World)
    (event : JValue) :
  message <> JUndefined ->
  message <> JNull ->
  get_prop message "event" = Normal event ->
  strict_eq_str event "get-inventory" = false ->
  runtime_onMessage host message sender respond w
    = (Normal true, after w (EvConsole "warn" "Unknown event" [event]))
  /\ requests (trace (snd (runtime_onMessage host message sender respond w)))
     = requests (trace w)
  /\ responses (trace (snd (runtime_onMessage host message sender respond w)))
     = responses (trace w).
Proof.
  intros Hu Hn He Hne.
  destruct (get_prop_defined message "data" Hu Hn) as [data Hd].
  rewrite (runtime_onMessage_unknown host message sender respond w event data He Hd Hne).
  split; [reflexivity|]. cbn [snd trace after].
  unfold requests, responses. rewrite !omap_app. simpl. rewrite !app_nil_r.
  split; reflexivity.
Qed.

Lemma runtime_onMessage_unknown_event_witness :
  runtime_onMessage Scenario.single_page Edge.unknown_message JNull sendResponse initial_world
  = (Normal true,
     after initial_world (EvConsole "warn" "Unknown event" [JStr "get-prices"])).
Proof.
  apply (runtime_onMessage_unknown_event Scenario.single_page Edge.unknown_message JNull
           sendResponse initial_world (JStr "get-prices")); try reflexivity; discriminate.
Defined.

(** X28.  For every message that is an object, the listener returns [true]
    and sends at most one response, which is an envelope; it makes no
    change to the registry. *)
Theorem runtime_onMessage_at_most_one_response
    (host : Host) (message sender : JValue) (w : World) :
  message <> JUndefined ->
  message <> JNull ->
  fst (runtime_onMessage host message sender sendResponse w) = Normal true
  /\ registered (snd (runtime_onMessage host message sender sendResponse w)) = registered w
  /\ (responses (trace (snd (runtime_onMessage host message sender sendResponse w)))
        = responses (trace w)
      \/ exists envelope,
           is_envelope envelope
           /\ responses (trace (snd (runtime_onMessage host message sender sendResponse w)))
              = responses (trace w) ++ [envelope]).
Proof.
  intros Hu Hn.
  destruct (get_prop_defined message "event" Hu Hn) as [event He].
  destruct (get_prop_defined message "data" Hu Hn) as [data Hd].
  destruct (strict_eq_str event "get-inventory") eqn:Heq.
  - destruct (get_prop_cases data "appId" "contextId") as [(appId & contextId & Ha & Hc)|[e Ha]].
    + rewrite (runtime_onMessage_get_inventory host message sender w event data appId contextId
                 He Hd Heq Ha Hc).
      cbn [fst snd registered trace after].
      destruct (getUserInventory_only_fetches host appId contextId w) as [Hreg [reqs Ht]].
      split; [reflexivity|]. split; [exact Hreg|]. right.
      exists (envelope_of (fst (getUserInventory host appId contextId w))).
      split; [apply envelope_of_is_envelope|].
      rewrite Ht. unfold responses at 1. rewrite omap_app.
      fold (responses (trace w ++ map EvFetch reqs)). rewrite responses_fetches. reflexivity.
    + rewrite (runtime_onMessage_get_inventory_no_data host message sender sendResponse w
                 event data e He Hd Heq Ha).
      cbn [fst snd registered trace after].
      split; [reflexivity|]. split; [reflexivity|]. left.
      unfold responses. rewrite omap_app. simpl. apply app_nil_r.
  - rewrite (runtime_onMessage_unknown host message sender sendResponse w event data He Hd Heq).
    cbn [fst snd registered trace after].
    split; [reflexivity|]. split; [reflexivity|]. left.
    unfold responses. rewrite omap_app. simpl. apply app_nil_r.
Qed.

Lemma runtime_onMessage_at_most_one_response_witness :
  fst (runtime_onMessage Scenario.single_page Scenario.get_inventory_message JNull
         sendResponse initial_world) = Normal true
  /\ fst (runtime_onMessage Scenario.single_page (JObj []) JNull
            sendResponse initial_world) = Normal true.
Proof.
  destruct (runtime_onMessage_at_most_one_response Scenario.single_page
              Scenario.get_inventory_message JNull initial_world
              ltac:(discriminate) ltac:(discriminate)) as (H1 & _).
  destruct (runtime_onMessage_at_most_one_response Scenario.single_page
              (JObj []) JNull initial_world
              ltac:(discriminate) ltac:(discriminate)) as (H2 & _).
  split; assumption.
Defined.

(** X29.  When the response callback throws on the success envelope,
    [executeCommand] calls it a second time, with the failure envelope
    carrying the message of what the callback threw; the outcome of that
    second call is the outcome of [executeCommand]. *)
Theorem executeCommand_respond_throws
    (fn : M (Promise JValue)) (respond : JValue -> M JValue)
    (w w1 w2 : World) (payload : JValue) (e : JsError) :
  fn w = (Normal (Normal payload), w1) ->
  respond (envelope_success payload) w1 = (Throw e, w2) ->
  executeCommand fn respond w = respond (envelope_failure (err_message e)) w2.
Proof.
  intros Hfn Hr. unfold executeCommand. unfold bind at 1. rewrite Hfn.
  unfold promise_then. unfold bind at 1. unfold call_async at 1.
  fold (envelope_success payload). rewrite Hr.
  unfold promise_catch. unfold bind at 1. unfold call_async at 1.
  fold (envelope_failure (err_message e)).
  destruct (respond (envelope_failure (err_message e)) w2) as [[v|e'] w3]; reflexivity.
Qed.

Lemma executeCommand_respond_throws_witness :
  responses (trace (snd (executeCommand (call_async (ret (JStr "items")))
                           Edge.respond_failing_once initial_world)))
  = [envelope_success (JStr "items");
     envelope_failure "Attempting to use a disconnected port object"].
Proof.
  rewrite (executeCommand_respond_throws (call_async (ret (JStr "items")))
             Edge.respond_failing_once initial_world initial_world
             (after initial_world (EvRespond (envelope_success (JStr "items"))))
             (JStr "items") (Error "Attempting to use a disconnected port object")
             eq_refl eq_refl).
  reflexivity.
Defined.
